(** * NewsLetter-AI: the newsletter routes, embedded and verified

    A shallow embedding of [server/routes/newsletters.js] and of the
    [Newsletter] schema of [server/models/newsletter.model.js].

    - A JavaScript string is a Rocq [string]; one character stands for one
      code unit (the model covers code units below 256), so [String.length]
      is the [.length] of the source.
    - Every request handler is an [async] function with one outer
      [try]/[catch]; it is a computation in the monad [M] below, which
      threads the persistent collections and the journal of external calls,
      and in which a rejected [await] is a thrown exception.
    - What the outside world answers (the generation service, the headless
      browser, the mail provider, the database driver) is an [Env]: the
      handlers are functions of it, and the theorems quantify over it.
    - Handlers run one at a time: interleavings of concurrent requests are
      outside this model.  Mongoose's [timestamps] are not modelled.
    - The repository also holds an earlier revision of the router; it
      differs in the wording of the prompt (which reads the date as well)
      and of the mail, and in nothing the theorems below rest on. *)

From Stdlib Require Import NArith String Ascii List Lia DecimalString.
From stdpp Require Import base option list gmap sets strings.

Set Warnings "-register-all".

Local Open Scope string_scope.
Local Open Scope N_scope.

(** ** JavaScript strings *)

Module Js.

(** The double quote and the line feed, which a string literal of this
    file does not spell. *)
Definition dq : string := String "034"%char EmptyString.
Definition nl : string := String "010"%char EmptyString.

(** [s.length] *)
Definition length (s : string) : N := N.of_nat (String.length s).

(** [!s] for a string: only the empty string is falsy. *)
Definition falsy (s : string) : bool :=
  match s with EmptyString => true | _ => false end.

(** [String(n)] for a natural number. *)
Definition of_N (n : N) : string := NilZero.string_of_uint (N.to_uint n).

(** The rest of [s] after the literal [p], when [s] starts with [p]. *)
Fixpoint strip_prefix (p s : string) : option string :=
  match p, s with
  | EmptyString, _ => Some s
  | String a p', String b s' =>
      if Ascii.eqb a b then strip_prefix p' s' else None
  | String _ _, EmptyString => None
  end.

(** What precedes the literal [q] in [s], when [s] ends with [q]. *)
Fixpoint strip_suffix (q s : string) : option string :=
  if String.eqb s q then Some EmptyString
  else match s with
       | EmptyString => None
       | String a s' => String a <$> strip_suffix q s'
       end.

(** [s.replace(/^p/, '')] for a literal [p]: without the [m] flag [^]
    matches at the start of the input only. *)
Definition replace_at_start (p s : string) : string :=
  default s (strip_prefix p s).

(** [s.replace(/q$/, '')] for a literal [q]: without the [m] flag [$]
    matches at the end of the input only. *)
Definition replace_at_end (q s : string) : string :=
  default s (strip_suffix q s).

(** [\s] of a regular expression, on code units below 256. *)
Definition is_space (c : ascii) : bool :=
  let n := N_of_ascii c in
  ((9 <=? n) && (n <=? 13)) || (n =? 32) || (n =? 160).

(** [s.replace(/\s/g, '_')] *)
Fixpoint replace_spaces (s : string) : string :=
  match s with
  | EmptyString => EmptyString
  | String c s' =>
      String (if is_space c then "_"%char else c) (replace_spaces s')
  end.

(** [parts.join(sep)] *)
Fixpoint join (sep : string) (parts : list string) : string :=
  match parts with
  | [] => EmptyString
  | [p] => p
  | p :: rest => p +:+ sep +:+ join sep rest
  end.

End Js.

(** ** [JSON.stringify(value, null, 2)]

    The values the prompt composer serializes are objects, arrays, strings
    and [undefined]; the serialization follows ECMAScript's
    [SerializeJSONProperty] with a gap of two spaces. *)

Module Json.

Inductive value : Type :=
| Undefined
| Str (s : string)
| Arr (items : list value)
| Obj (members : list (string * value)).

Definition hex_digit (n : N) : ascii :=
  ascii_of_N (if n <? 10 then 48 + n else 87 + n).

(** One code unit of [QuoteJSONString]. *)
Definition quote_char (c : ascii) : string :=
  let n := N_of_ascii c in
  if n =? 8 then "\b"
  else if n =? 9 then "\t"
  else if n =? 10 then "\n"
  else if n =? 12 then "\f"
  else if n =? 13 then "\r"
  else if n =? 34 then "\" +:+ Js.dq
  else if n =? 92 then "\\"
  else if n <? 32 then
    "\u00" +:+ String (hex_digit (n / 16)) (String (hex_digit (n mod 16)) EmptyString)
  else String c EmptyString.

Fixpoint quote_chars (s : string) : string :=
  match s with
  | EmptyString => EmptyString
  | String c s' => quote_char c +:+ quote_chars s'
  end.

Definition quote (s : string) : string := Js.dq +:+ quote_chars s +:+ Js.dq.

Definition gap : string := "  ".

(** [None] is the [undefined] that [SerializeJSONProperty] returns. *)
Fixpoint serialize (indent : string) (v : value) {struct v} : option string :=
  match v with
  | Undefined => None
  | Str s => Some (quote s)
  | Arr items =>
      let stepback := indent in
      let indent := indent +:+ gap in
      let partial :=
        (fix elements (l : list value) : list string :=
           match l with
           | [] => []
           | x :: l' => default "null" (serialize indent x) :: elements l'
           end) items in
      Some (match partial with
            | [] => "[]"
            | _ => "[" +:+ Js.nl +:+ indent
                   +:+ Js.join ("," +:+ Js.nl +:+ indent) partial
                   +:+ Js.nl +:+ stepback +:+ "]"
            end)
  | Obj members =>
      let stepback := indent in
      let indent := indent +:+ gap in
      let partial :=
        (fix properties (l : list (string * value)) : list string :=
           match l with
           | [] => []
           | (k, x) :: l' =>
               match serialize indent x with
               | Some strP => (quote k +:+ ": " +:+ strP) :: properties l'
               | None => properties l'
               end
           end) members in
      Some (match partial with
            | [] => "{}"
            | _ => "{" +:+ Js.nl +:+ indent
                   +:+ Js.join ("," +:+ Js.nl +:+ indent) partial
                   +:+ Js.nl +:+ stepback +:+ "}"
            end)
  end.

(** [JSON.stringify(v, null, 2)] where the result is a string. *)
Definition stringify (v : value) : string := default "" (serialize "" v).

Definition of_option (o : option string) : value :=
  match o with Some s => Str s | None => Undefined end.

End Json.

(** ** [format(date, 'MMMM do, yyyy')] of date-fns, English locale *)

Module DateFns.

(** The local calendar fields of a JavaScript [Date] that [format] reads. *)
Record Date : Type := { getFullYear : N; getMonth : N; getDate : N }.

Definition monthValues_wide : list string :=
  [ "January"; "February"; "March"; "April"; "May"; "June"; "July";
    "August"; "September"; "October"; "November"; "December" ].

(** [localize.ordinalNumber] *)
Definition ordinalNumber (number : N) : string :=
  let rem100 := number mod 100 in
  let th := Js.of_N number +:+ "th" in
  if (20 <? rem100) || (rem100 <? 10) then
    match rem100 mod 10 with
    | 1 => Js.of_N number +:+ "st"
    | 2 => Js.of_N number +:+ "nd"
    | 3 => Js.of_N number +:+ "rd"
    | _ => th
    end
  else th.

Fixpoint zeros (n : nat) : string :=
  match n with O => EmptyString | S n' => "0" +:+ zeros n' end.

(** [addLeadingZeros(number, targetLength)] *)
Definition addLeadingZeros (number : N) (targetLength : nat) : string :=
  let output := Js.of_N number in
  zeros (targetLength - String.length output) +:+ output.

Definition format_MMMM_do_yyyy (d : Date) : string :=
  let year := if 0 <? getFullYear d then getFullYear d else 1 - getFullYear d in
  nth (N.to_nat (getMonth d)) monthValues_wide ""
  +:+ " " +:+ ordinalNumber (getDate d)
  +:+ ", " +:+ addLeadingZeros year 4.

End DateFns.


(** ** The documents of the collections *)

Abbreviation ObjectId := N (only parsing).

Module Article.
(** An article of the request body; a property that is missing is
    [undefined]. *)
Record t : Type := {
  _id : ObjectId;
  title : option string;
  summary : option string;
  sourceName : option string;
  category : option string;
  originalUrl : option string;
  imageUrl : option string }.
End Article.

Module PdfContent.
Record t : Type := { data : option (list Byte.byte); contentType : option string }.
End PdfContent.

Module Newsletter.
(** [newsletterSchema].  The [createdAt] and [updatedAt] that
    [timestamps: true] has Mongoose maintain are not fields of this record:
    nothing below speaks of them. *)
Record t : Type := {
  _id : ObjectId;
  title : string;
  category : string;
  status : string;
  articles : list ObjectId;
  recipients : list ObjectId;
  pdfContent : PdfContent.t;
  htmlContent : option string }.

Definition status_enum : list string :=
  [ "Not Sent"; "pending"; "approved"; "sent"; "declined" ].
Definition status_default : string := "Not Sent".

Definition set_status (s : string) (n : t) : t :=
  {| _id := _id n; title := title n; category := category n; status := s;
     articles := articles n; recipients := recipients n;
     pdfContent := pdfContent n; htmlContent := htmlContent n |}.

Definition set_recipients (r : list ObjectId) (n : t) : t :=
  {| _id := _id n; title := title n; category := category n;
     status := status n; articles := articles n; recipients := r;
     pdfContent := pdfContent n; htmlContent := htmlContent n |}.
End Newsletter.

Module User.
Record t : Type := { _id : ObjectId; email : string }.
End User.

Module Category.
Record t : Type := { name : string; flyerImageUrl : option string }.
End Category.

Module Notification.
Record t : Type := {
  user : ObjectId;
  newsletter : ObjectId;
  message : string;
  actionUrl : option string }.
End Notification.

Module Mail.
(** The message handed to [sgMail.send]. *)
Record t : Type := {
  to : list string;
  from_name : string;
  from_email : option string;
  subject : string;
  html : string }.
End Mail.

(** [array.addToSet(...values)] of a Mongoose array: each value in turn is
    pushed unless the array, with what was pushed before it, holds it. *)
Definition addToSet (array values : list ObjectId) : list ObjectId :=
  fold_left (fun (arr : list ObjectId) v =>
               if decide (v ∈ arr) then arr else (arr ++ [v])%list)
            values array.

(** ** Prompt composer *)

Definition articlesForPrompt (articles : list Article.t) : Json.value :=
  Json.Arr (map (fun a => Json.Obj
    [ ("title", Json.of_option (Article.title a));
      ("summary", Json.of_option (Article.summary a));
      ("source", Json.of_option (Article.sourceName a));
      ("category", Json.of_option (Article.category a));
      ("originalUrl", Json.of_option (Article.originalUrl a));
      ("imageUrl", Json.of_option (Article.imageUrl a)) ]) articles).

(** [now] is the value of [new Date()] that the template reads. *)
Definition createAdvancedNewsletterHtmlPrompt (now : DateFns.Date)
    (articles : list Article.t) (title : string)
    (flyerImageUrl : option string) : string :=
  let flyerImageHtml :=
    match flyerImageUrl with
    | Some url =>
        if Js.falsy url then ""
        else "<img src=" +:+ Js.dq +:+ url +:+ Js.dq
             +:+ " alt=" +:+ Js.dq +:+ "Flyer Image" +:+ Js.dq
             +:+ " style=" +:+ Js.dq
             +:+ "max-width: 100%; height: auto; display: block; margin-bottom: 20px; border-radius: 5px;"
             +:+ Js.dq +:+ ">"
    | None => ""
    end in
  let json := Json.stringify (Json.Obj [("articles", articlesForPrompt articles)]) in
  "
        Act as an expert HTML and CSS email designer. Your task is to generate a single, complete HTML file for a professional and visually appealing newsletter based on the provided JSON data.

        **Design & Layout Guidelines:**

        1.  **Overall Structure:**
            * Use a main container with a max-width of 680px, centered with a light gray background (#f4f4f4).
            * The email body should have a clean, white background (#ffffff) with rounded corners and a subtle shadow.
            * Use a professional and readable font like 'Helvetica Neue', Helvetica, Arial, sans-serif.

        2.  **Header:**
            * Include a preheader text: "
      +:+ Js.dq
      +:+ "Your weekly dose of insightful news."
      +:+ Js.dq
      +:+ "
            * A main header with the newsletter title "
      +:+ Js.dq
      +:+ title
      +:+ Js.dq
      +:+ " in a large, bold font (e.g., 32px) and a dark color (#333333).
            * Include the date ("
      +:+ (DateFns.format_MMMM_do_yyyy now)
      +:+ ") in a smaller, lighter font.

        3.  **Flyer Image:**
            "
      +:+ flyerImageHtml
      +:+ "

        4.  **Article Layout:**
            * Use a single-column layout for articles.
            * Each article should have a clear headline, a brief summary, and a "
      +:+ Js.dq
      +:+ "Read More"
      +:+ Js.dq
      +:+ " button linking to the original article.
            * If an `imageUrl` is provided for an article, display it above the headline.

        5.  **Styling:**
            * Use inline CSS for all styling to ensure maximum compatibility with email clients.
            * Buttons should have a solid background color, rounded corners, and clear, legible text.
            * Use ample white space to improve readability.

        6.  **Footer:**
            * Include a footer with your company name, address, and a link to unsubscribe.
            * Add social media icons (as links) for platforms like Twitter, LinkedIn, and Facebook.

        **JSON Data to Use:**
        ```json
        "
      +:+ json
      +:+ "
        ```

        **IMPORTANT: Your response MUST be only the raw HTML code, starting with <!DOCTYPE html>. Do not add any commentary or explanations.**
    ".


(** ** The outside world, the state and the handler monad *)

(** The calls that leave the process.  Each is awaited by a handler; its
    promise resolves or rejects. *)
Module Call.
Inductive t : Type :=
| Category_findOne (name : string)
| model_generateContent (prompt : string)
| puppeteer_launch
| browser_newPage
| page_setContent (html : string)
| page_pdf
| browser_close
| Newsletter_insert (doc : Newsletter.t)
| Newsletter_save (doc : Newsletter.t)
| Notification_save (doc : Notification.t)
| Newsletter_findById (id : ObjectId)
| Newsletter_findByIdAndUpdate (id : ObjectId) (status : string)
| Newsletter_findByIdAndDelete (id : ObjectId)
| User_find (ids : list ObjectId)
| sgMail_send (msg : Mail.t)
| Notification_insertMany (docs : list Notification.t).
End Call.

(** What the process is configured with and what the outside answers. *)
Record Env : Type := {
  SENDGRID_API_KEY : bool;            (* process.env.SENDGRID_API_KEY is set *)
  FROM_EMAIL : option string;         (* process.env.FROM_EMAIL *)
  GEMINI_API_KEY : bool;              (* process.env.GEMINI_API_KEY is set *)
  now : DateFns.Date;                 (* new Date() *)
  User_collection : list User.t;
  Category_collection : list Category.t;
  rejects : Call.t -> bool;             (* the promise of this call rejects *)
  response_text : string -> string;   (* result.response.text() for a prompt *)
  pdf_of : string -> list Byte.byte;  (* the buffer page.pdf() resolves to *)
  new_ObjectId : ObjectId;            (* the _id of a document made with new *)
  write_error : Notification.t -> bool (* this document of a batch is refused *)
}.

(** The collections this router writes, and the journal of the external
    calls made so far, each with whether it resolved. *)
Record World : Type := {
  newsletters : gmap N Newsletter.t;
  notifications : list Notification.t;
  journal : list (Call.t * bool) }.

Inductive Exn : Type :=
| Rejected (c : Call.t)
| Error (message : string).

Inductive Outcome (A : Type) : Type :=
| Returned (a : A)
| Thrown (e : Exn).
Arguments Returned {A} a.
Arguments Thrown {A} e.

Definition M (A : Type) : Type := World -> Outcome A * World.

Definition ret {A} (a : A) : M A := fun w => (Returned a, w).

Definition throw {A} (e : Exn) : M A := fun w => (Thrown e, w).

Definition bind {A B} (m : M A) (k : A -> M B) : M B :=
  fun w => match m w with
           | (Returned a, w') => k a w'
           | (Thrown e, w') => (Thrown e, w')
           end.

(** [try { m } catch (err) { h err }]: what [m] did before it threw stays
    done. *)
Definition try_catch {A} (m : M A) (h : Exn -> M A) : M A :=
  fun w => match m w with
           | (Returned a, w') => (Returned a, w')
           | (Thrown e, w') => h e w'
           end.

Definition gets {A} (f : World -> A) : M A := fun w => (Returned (f w), w).

Definition modify (f : World -> World) : M unit := fun w => (Returned tt, f w).

Notation "'let*' x ':=' m 'in' k" := (bind m (fun x => k))
  (at level 10, x pattern, m at level 100, k at level 200).

Definition set_newsletters (f : gmap N Newsletter.t -> gmap N Newsletter.t)
    (w : World) : World :=
  {| newsletters := f (newsletters w);
     notifications := notifications w;
     journal := journal w |}.

Definition add_notifications (docs : list Notification.t) (w : World) : World :=
  {| newsletters := newsletters w;
     notifications := (notifications w ++ docs)%list;
     journal := journal w |}.

Definition record_call (c : Call.t) (resolved : bool) (w : World) : World :=
  {| newsletters := newsletters w;
     notifications := notifications w;
     journal := (journal w ++ [(c, resolved)])%list |}.

(** The HTTP response of a handler. *)
Inductive Body : Type :=
| json_message (message : string)
| json_doc (doc : option Newsletter.t)       (* [None] is [null] *)
| send_text (text : string)
| send_buffer (contentType : option string) (contentDisposition : string)
              (data : list Byte.byte).

Record Response : Type := { statusCode : N; body : Body }.

Definition res_json (code : N) (message : string) : Response :=
  {| statusCode := code; body := json_message message |}.

(** [res.setHeader(name, value)] of Node's response: it throws for a value
    that is [undefined] and for one that holds a code unit other than a
    tab, 0x20 to 0x7e and 0x80 to 0xff. *)
Definition valid_header_char (c : ascii) : bool :=
  let n := N_of_ascii c in
  (n =? 9) || ((32 <=? n) && (n <=? 126)) || (128 <=? n).

Fixpoint checkInvalidHeaderChar (val : string) : bool :=
  match val with
  | EmptyString => false
  | String c rest => negb (valid_header_char c) || checkInvalidHeaderChar rest
  end.

Definition setHeader (name : string) (value : option string) : M unit :=
  match value with
  | None =>
      throw (Error ("Invalid value " +:+ Js.dq +:+ "undefined" +:+ Js.dq
                    +:+ " for header " +:+ Js.dq +:+ name +:+ Js.dq))
  | Some val =>
      if checkInvalidHeaderChar val
      then throw (Error ("Invalid character in header content ["
                         +:+ Js.dq +:+ name +:+ Js.dq +:+ "]"))
      else ret tt
  end.

Section Handlers.

Context (env : Env).

(** *** External calls *)

(** [await] of a call whose value the handler does not read. *)
Definition await (c : Call.t) : M unit :=
  fun w =>
    if rejects env c then (Thrown (Rejected c), record_call c false w)
    else (Returned tt, record_call c true w).

Definition Category_findOne (name : string) : M (option Category.t) :=
  let* _ := await (Call.Category_findOne name) in
  ret (List.find (fun c => String.eqb (Category.name c) name)
                 (Category_collection env)).

Definition model_generateContent (prompt : string) : M string :=
  let* _ := await (Call.model_generateContent prompt) in
  ret (response_text env prompt).

Definition puppeteer_launch : M unit := await Call.puppeteer_launch.
Definition browser_newPage : M unit := await Call.browser_newPage.
Definition page_setContent (html : string) : M unit :=
  await (Call.page_setContent html).
(** [content] is the markup the page was loaded with. *)
Definition page_pdf (content : string) : M (list Byte.byte) :=
  let* _ := await Call.page_pdf in ret (pdf_of env content).
Definition browser_close : M unit := await Call.browser_close.

(** [doc.save()] of a document made with [new]: the store refuses an
    [_id] it already holds. *)
Definition Newsletter_insert (doc : Newsletter.t) : M unit :=
  fun w =>
    let c := Call.Newsletter_insert doc in
    if rejects env c || bool_decide (is_Some (newsletters w !! Newsletter._id doc))
    then (Thrown (Rejected c), record_call c false w)
    else (Returned tt,
          record_call c true
            (set_newsletters (insert (Newsletter._id doc) doc) w)).

(** [doc.save()] of a document that was read from the store. *)
Definition Newsletter_save (doc : Newsletter.t) : M unit :=
  let* _ := await (Call.Newsletter_save doc) in
  modify (set_newsletters (insert (Newsletter._id doc) doc)).

Definition Newsletter_findById (id : ObjectId) : M (option Newsletter.t) :=
  let* _ := await (Call.Newsletter_findById id) in
  gets (fun w => newsletters w !! id).

(** [findByIdAndUpdate(id, { status }, { new: true })] *)
Definition Newsletter_findByIdAndUpdate (id : ObjectId) (status : string)
    : M (option Newsletter.t) :=
  let* _ := await (Call.Newsletter_findByIdAndUpdate id status) in
  let* found := gets (fun w => newsletters w !! id) in
  match found with
  | Some doc =>
      let doc' := Newsletter.set_status status doc in
      let* _ := modify (set_newsletters (insert id doc')) in
      ret (Some doc')
  | None => ret None
  end.

Definition Newsletter_findByIdAndDelete (id : ObjectId)
    : M (option Newsletter.t) :=
  let* _ := await (Call.Newsletter_findByIdAndDelete id) in
  let* found := gets (fun w => newsletters w !! id) in
  let* _ := modify (set_newsletters (delete id)) in
  ret found.

(** [User.find({ _id: { $in: ids } }).select('email')] *)
Definition User_find (ids : list ObjectId) : M (list User.t) :=
  let* _ := await (Call.User_find ids) in
  ret (List.filter (fun u => bool_decide (User._id u ∈ ids))
                   (User_collection env)).

Definition sgMail_send (msg : Mail.t) : M unit := await (Call.sgMail_send msg).

Definition Notification_save (doc : Notification.t) : M unit :=
  let* _ := await (Call.Notification_save doc) in
  modify (add_notifications [doc]).

(** [insertMany(docs, { ordered: false })]: every document that can be
    written is written; the promise rejects when one could not be. *)
Definition Notification_insertMany (docs : list Notification.t) : M unit :=
  fun w =>
    let c := Call.Notification_insertMany docs in
    if rejects env c then (Thrown (Rejected c), record_call c false w)
    else
      let written := List.filter (fun d => negb (write_error env d)) docs in
      let w' := add_notifications written w in
      if forallb (fun d => negb (write_error env d)) docs
      then (Returned tt, record_call c true w')
      else (Thrown (Rejected c), record_call c false w').

(** *** POST /generate-and-save *)

Record GenerateBody : Type := {
  body_articles : option (list Article.t);
  body_title : option string;
  body_category : option string }.

Definition not_given (o : option string) : bool :=
  match o with Some s => Js.falsy s | None => true end.

Definition no_articles (o : option (list Article.t)) : bool :=
  match o with Some (_ :: _) => false | _ => true end.

(** The two [replace] calls on the text of the generation service. *)
Definition strip_code_fence (text : string) : string :=
  Js.replace_at_end (Js.nl +:+ "```")
    (Js.replace_at_start ("```html" +:+ Js.nl) text).

(** [!generatedHtml || generatedHtml.length < 100] *)
Definition unusable (generatedHtml : string) : bool :=
  Js.falsy generatedHtml || (Js.length generatedHtml <? 100).

Definition check_generated (generatedHtml : string) : M unit :=
  if unusable generatedHtml
  then throw (Error "AI returned an empty or invalid HTML response.")
  else ret tt.

Definition content_disposition (title : string) : string :=
  "inline; filename=" +:+ Js.dq +:+ Js.replace_spaces title +:+ ".pdf" +:+ Js.dq.

Definition generate_and_save (user : ObjectId) (body : GenerateBody)
    : M Response :=
  if negb (GEMINI_API_KEY env)
  then ret (res_json 500 "Gemini API client is not initialized.")
  else
    try_catch
      (if no_articles (body_articles body) || not_given (body_title body)
          || not_given (body_category body)
       then ret (res_json 400 "Title, category, and articles are required.")
       else
         let articles := default [] (body_articles body) in
         let title := default "" (body_title body) in
         let category := default "" (body_category body) in
         let* categoryData := Category_findOne category in
         let flyerImageUrl :=
           match categoryData with
           | Some c => Category.flyerImageUrl c
           | None => None
           end in
         (* 1. Generate HTML with AI *)
         let prompt :=
           createAdvancedNewsletterHtmlPrompt (now env) articles title
             flyerImageUrl in
         let* text := model_generateContent prompt in
         let generatedHtml := strip_code_fence text in
         let* _ := check_generated generatedHtml in
         (* 2. Convert HTML to PDF *)
         let* _ := puppeteer_launch in
         let* _ := browser_newPage in
         let* _ := page_setContent generatedHtml in
         let* pdfBuffer := page_pdf generatedHtml in
         let* _ := browser_close in
         (* 3. Create and save the newsletter *)
         let newNewsletter :=
           {| Newsletter._id := new_ObjectId env;
              Newsletter.title := title;
              Newsletter.category := category;
              Newsletter.status := "Not Sent";
              Newsletter.articles := map Article._id articles;
              Newsletter.recipients := [];
              Newsletter.pdfContent :=
                {| PdfContent.data := Some pdfBuffer;
                   PdfContent.contentType := Some "application/pdf" |};
              Newsletter.htmlContent := Some generatedHtml |} in
         let* _ := Newsletter_insert newNewsletter in
         let* _ := Notification_save
           {| Notification.user := user;
              Notification.newsletter := Newsletter._id newNewsletter;
              Notification.message :=
                "New newsletter " +:+ Js.dq +:+ Newsletter.title newNewsletter
                +:+ Js.dq +:+ " generated. Check it out in " +:+ Js.dq
                +:+ "Newsletter History" +:+ Js.dq +:+ " to share and view.";
              Notification.actionUrl :=
                Some "/dashboard?tab=generated-newsletters" |} in
         (* 4. Send the PDF back *)
         let* _ := setHeader "Content-Type" (Some "application/pdf") in
         let* _ := setHeader "Content-Disposition"
                     (Some (content_disposition title)) in
         ret {| statusCode := 200;
                body := send_buffer (Some "application/pdf")
                          (content_disposition title) pdfBuffer |})
      (fun err =>
         ret (res_json 500
                "Failed to generate and save PDF. Check server logs for details.")).

(** *** GET /:id/download *)

Definition download (id : ObjectId) : M Response :=
  try_catch
    (let* newsletter := Newsletter_findById id in
     match newsletter with
     | Some newsletter =>
         match PdfContent.data (Newsletter.pdfContent newsletter) with
         | Some data =>
             let* _ := setHeader "Content-Type"
                         (PdfContent.contentType
                            (Newsletter.pdfContent newsletter)) in
             let* _ := setHeader "Content-Disposition"
                         (Some (content_disposition
                                  (Newsletter.title newsletter))) in
             ret {| statusCode := 200;
                    body := send_buffer
                      (PdfContent.contentType (Newsletter.pdfContent newsletter))
                      (content_disposition (Newsletter.title newsletter))
                      data |}
         | None => ret {| statusCode := 404; body := send_text "PDF not found." |}
         end
     | None => ret {| statusCode := 404; body := send_text "PDF not found." |}
     end)
    (fun err =>
       ret {| statusCode := 500;
              body := send_text "Server error while retrieving PDF." |}).

(** *** PATCH /:id/status *)

Definition patch_status (id : ObjectId) (status : string) : M Response :=
  try_catch
    (let* updatedNewsletter := Newsletter_findByIdAndUpdate id status in
     ret {| statusCode := 200; body := json_doc updatedNewsletter |})
    (fun err => ret (res_json 500 "Server error updating status.")).

(** *** DELETE /:id *)

Definition delete_newsletter (id : ObjectId) : M Response :=
  try_catch
    (let* newsletter := Newsletter_findByIdAndDelete id in
     match newsletter with
     | None => ret (res_json 404 "Newsletter not found.")
     | Some _ => ret (res_json 200 "Newsletter deleted successfully.")
     end)
    (fun err => ret (res_json 500 "Server error while deleting newsletter.")).

(** *** POST /:id/send *)

Definition mail_for (newsletter : Newsletter.t) (recipients : list User.t)
    : Mail.t :=
  {| Mail.to := map User.email recipients;
     Mail.from_name := "NewsLetterAI";
     Mail.from_email := FROM_EMAIL env;
     Mail.subject := "Your Newsletter: " +:+ Newsletter.title newsletter;
     Mail.html :=
       "
                        <p>Hi there,</p>
                        <p>Here is your latest newsletter, <strong>"
         +:+ Newsletter.title newsletter
         +:+ "</strong>! We've gathered some of the most interesting stories and updates for you. We hope you enjoy it!</p>
                        "
         +:+ default "undefined" (Newsletter.htmlContent newsletter)
         +:+ "
                        <p>Thanks for being a subscriber!</p>
                        <p>Best,</p>
                        <p>The NewsLetterAI Team</p>
                    " |}.

Definition notification_for (newsletter : Newsletter.t) (userId : ObjectId)
    : Notification.t :=
  {| Notification.user := userId;
     Notification.newsletter := Newsletter._id newsletter;
     Notification.message :=
       "You received the " +:+ Js.dq +:+ Newsletter.title newsletter +:+ Js.dq
       +:+ " newsletter.";
     Notification.actionUrl := None |}.

Definition no_recipients (o : option (list ObjectId)) : bool :=
  match o with Some (_ :: _) => false | _ => true end.

Definition send (id : ObjectId) (body_userIds : option (list ObjectId))
    : M Response :=
  try_catch
    (if no_recipients body_userIds
     then ret (res_json 400 "No recipients selected.")
     else
       let userIds := default [] body_userIds in
       let* found := Newsletter_findById id in
       match found with
       | None => ret (res_json 404 "Newsletter not found.")
       | Some newsletter =>
           let* _ :=
             if SENDGRID_API_KEY env then
               let* recipients := User_find userIds in
               if 0 <? N.of_nat (List.length recipients)
               then sgMail_send (mail_for newsletter recipients)
               else ret tt
             else ret tt in
           let newsletter := Newsletter.set_status "sent" newsletter in
           let newsletter :=
             Newsletter.set_recipients
               (addToSet (Newsletter.recipients newsletter) userIds)
               newsletter in
           let* _ := Newsletter_save newsletter in
           let* _ :=
             try_catch
               (let notifications := map (notification_for newsletter) userIds in
                if 0 <? N.of_nat (List.length notifications)
                then Notification_insertMany notifications
                else ret tt)
               (fun notificationError => ret tt) in
           ret (res_json 200
                  ("Newsletter successfully sent to "
                   +:+ Js.of_N (N.of_nat (List.length userIds)) +:+ " user(s)."))
       end)
    (fun err =>
       ret (res_json 500 "Failed to send newsletter due to a server error.")).

End Handlers.

(** The prompt and the stripped text of one generation request. *)
Definition prompt_for (env : Env) (body : GenerateBody) : string :=
  let category := default "" (body_category body) in
  createAdvancedNewsletterHtmlPrompt (now env)
    (default [] (body_articles body)) (default "" (body_title body))
    match List.find (fun c => String.eqb (Category.name c) category)
                    (Category_collection env) with
    | Some c => Category.flyerImageUrl c
    | None => None
    end.

Definition generated_for (env : Env) (body : GenerateBody) : string :=
  strip_code_fence (response_text env (prompt_for env body)).

(** The document the pipeline builds for a request. *)
Definition new_newsletter (env : Env) (body : GenerateBody) : Newsletter.t :=
  {| Newsletter._id := new_ObjectId env;
     Newsletter.title := default "" (body_title body);
     Newsletter.category := default "" (body_category body);
     Newsletter.status := "Not Sent";
     Newsletter.articles := map Article._id (default [] (body_articles body));
     Newsletter.recipients := [];
     Newsletter.pdfContent :=
       {| PdfContent.data := Some (pdf_of env (generated_for env body));
          PdfContent.contentType := Some "application/pdf" |};
     Newsletter.htmlContent := Some (generated_for env body) |}.

(** The request carries a title, a category and at least one article. *)
Definition complete (body : GenerateBody) : bool :=
  negb (no_articles (body_articles body) || not_given (body_title body)
        || not_given (body_category body)).

(** Headless browsers launched and not closed, read off a journal. *)
Definition is_launch (e : Call.t * bool) : bool :=
  match e with (Call.puppeteer_launch, true) => true | _ => false end.

Definition is_close (e : Call.t * bool) : bool :=
  match e with (Call.browser_close, true) => true | _ => false end.

Definition live_browsers (j : list (Call.t * bool)) : nat :=
  List.length (List.filter is_launch j) - List.length (List.filter is_close j).

(** The renderer was called on: some call of the journal is one of
    puppeteer's. *)
Definition is_render_call (c : Call.t) : bool :=
  match c with
  | Call.puppeteer_launch | Call.browser_newPage | Call.page_setContent _
  | Call.page_pdf | Call.browser_close => true
  | _ => false
  end.

Definition renderer_invoked (j : list (Call.t * bool)) : bool :=
  existsb (fun e => is_render_call (fst e)) j.

(** ** The distribution workflow, read off [send] *)

(** The users that [User.find] resolves the given identities to. *)
Definition resolved (env : Env) (userIds : list ObjectId) : list User.t :=
  List.filter (fun u => bool_decide (User._id u ∈ userIds)) (User_collection env).

(** No delivery error: no provider is configured, or nobody resolves, or
    the provider accepts the message. *)
Definition delivery_passes (env : Env) (newsletter : Newsletter.t)
    (userIds : list ObjectId) : bool :=
  if SENDGRID_API_KEY env then
    negb (rejects env (Call.User_find userIds))
    && (if 0 <? N.of_nat (List.length (resolved env userIds))
        then negb (rejects env
                     (Call.sgMail_send (mail_for env newsletter (resolved env userIds))))
        else true)
  else true.

(** The document that [send] saves. *)
Definition sent_doc (newsletter : Newsletter.t) (userIds : list ObjectId)
    : Newsletter.t :=
  Newsletter.set_recipients
    (addToSet (Newsletter.recipients newsletter) userIds)
    (Newsletter.set_status "sent" newsletter).

(** The message of the success response. *)
Definition sent_message (userIds : list ObjectId) : string :=
  "Newsletter successfully sent to "
  +:+ Js.of_N (N.of_nat (List.length userIds)) +:+ " user(s).".

(** The notification batch of [send], and whether writing it throws. *)
Definition batch_for (newsletter : Newsletter.t) (userIds : list ObjectId)
    : list Notification.t :=
  map (notification_for (sent_doc newsletter userIds)) userIds.

Definition batch_fails (env : Env) (docs : list Notification.t) : bool :=
  rejects env (Call.Notification_insertMany docs)
  || negb (forallb (fun d => negb (write_error env d)) docs).

(** Some step of the renderer rejects for this markup. *)
Definition render_fails (env : Env) (html : string) : bool :=
  rejects env Call.puppeteer_launch
  || rejects env Call.browser_newPage
  || rejects env (Call.page_setContent html)
  || rejects env Call.page_pdf
  || rejects env Call.browser_close.

(** ** Requests and the worlds they lead to *)

Inductive Request : Type :=
| POST_generate_and_save (user : ObjectId) (body : GenerateBody)
| GET_download (id : ObjectId)
| PATCH_status (id : ObjectId) (status : string)
| DELETE (id : ObjectId)
| POST_send (id : ObjectId) (userIds : option (list ObjectId)).

Definition handle (env : Env) (r : Request) : M Response :=
  match r with
  | POST_generate_and_save user body => generate_and_save env user body
  | GET_download id => download env id
  | PATCH_status id status => patch_status env id status
  | DELETE id => delete_newsletter env id
  | POST_send id userIds => send env id userIds
  end.

Definition empty_world : World :=
  {| newsletters := ∅; notifications := []; journal := [] |}.

(** The worlds the router can be in: it starts with empty collections and
    serves one request after another, the outside answering as it likes. *)
Inductive reachable : World -> Prop :=
| reachable_start : reachable empty_world
| reachable_step env r w :
    reachable w -> reachable (snd (handle env r w)).

(** The artifact and the markup of a record are both there or both not. *)
Definition all_or_nothing (n : Newsletter.t) : Prop :=
  is_Some (PdfContent.data (Newsletter.pdfContent n))
  <-> is_Some (Newsletter.htmlContent n).

(** A record as the generation pipeline makes it. *)
Definition generated (n : Newsletter.t) : Prop :=
  is_Some (PdfContent.data (Newsletter.pdfContent n))
  /\ exists html, Newsletter.htmlContent n = Some html
                  /\ (100 <= String.length html)%nat.

(** Every record is filed under its own [_id]. *)
Definition well_keyed (w : World) : Prop :=
  map_Forall (fun k n => Newsletter._id n = k) (newsletters w).

(** ** Sample data *)

Module Sample.

Definition article : Article.t :=
  {| Article._id := 7;
     Article.title := Some "X";
     Article.summary := Some "Y";
     Article.sourceName := Some "Z";
     Article.category := None;
     Article.originalUrl := Some "http://...";
     Article.imageUrl := None |}.

Definition body : GenerateBody :=
  {| body_articles := Some [article];
     body_title := Some "Weekly Digest";
     body_category := Some "Tech" |}.

Definition today : DateFns.Date :=
  {| DateFns.getFullYear := 2026; DateFns.getMonth := 10; DateFns.getDate := 1 |}.
Definition tomorrow : DateFns.Date :=
  {| DateFns.getFullYear := 2026; DateFns.getMonth := 10; DateFns.getDate := 2 |}.

Definition markup : string :=
  "<!DOCTYPE html><html><body><h1>Weekly Digest</h1><h2>X</h2><p>Y</p><p>Z</p><a href='http://...'>Read More</a></body></html>".

(** The markup wrapped in a code fence, as the service tends to answer. *)
Definition fenced : string :=
  "```html" +:+ Js.nl +:+ markup +:+ Js.nl +:+ "```".

(** Long enough, but not a document. *)
Definition chatty : string :=
  "Sure! Here is the newsletter you asked for: <html><body><h1>Weekly Digest</h1><p>Y</p></body></html> Enjoy!".

Definition too_short : string := "<!DOCTYPE html><html></html>".

Definition pdf : list Byte.byte :=
  [Byte.x25; Byte.x50; Byte.x44; Byte.x46; Byte.x2d].

Definition users : list User.t :=
  [ {| User._id := 10; User.email := "ann@example.com" |};
    {| User._id := 11; User.email := "bob@example.com" |};
    {| User._id := 12; User.email := "cy@example.com" |} ].

Definition all_resolve : Call.t -> bool := fun _ => false.

Definition load_fails (c : Call.t) : bool :=
  match c with Call.page_setContent _ => true | _ => false end.

Definition export_fails (c : Call.t) : bool :=
  match c with Call.page_pdf => true | _ => false end.

Definition mail_refused (c : Call.t) : bool :=
  match c with Call.sgMail_send _ => true | _ => false end.

Definition batch_refused (c : Call.t) : bool :=
  match c with Call.Notification_insertMany _ => true | _ => false end.

(** A process with both providers configured, at a given date, with the
    generation service answering [text] and the outside rejecting the
    calls [rejects] picks. *)
Definition env (date : DateFns.Date) (text : string)
    (rejects : Call.t -> bool) : Env :=
  {| SENDGRID_API_KEY := true;
     FROM_EMAIL := Some "news@example.com";
     GEMINI_API_KEY := true;
     now := date;
     User_collection := users;
     Category_collection :=
       [ {| Category.name := "Tech"; Category.flyerImageUrl := None |} ];
     rejects := rejects;
     response_text := fun _ => text;
     pdf_of := fun _ => pdf;
     new_ObjectId := 1;
     write_error := fun _ => false |}.

Definition newsletter (status : string) : Newsletter.t :=
  {| Newsletter._id := 1;
     Newsletter.title := "Weekly Digest";
     Newsletter.category := "Tech";
     Newsletter.status := status;
     Newsletter.articles := [7];
     Newsletter.recipients := [10; 11];
     Newsletter.pdfContent :=
       {| PdfContent.data := Some pdf;
          PdfContent.contentType := Some "application/pdf" |};
     Newsletter.htmlContent := Some markup |}.

(** A store that holds the one newsletter. *)
Definition library (status : string) : World :=
  {| newsletters := {[ 1 := newsletter status ]};
     notifications := [];
     journal := [] |}.

End Sample.

(** ** What [send] asks of the mail side *)

(** The calls of the delivery block: resolving the recipients and handing
    the message to the provider. *)
Definition is_delivery_call (c : Call.t) : bool :=
  match c with
  | Call.User_find _ | Call.sgMail_send _ => true
  | _ => false
  end.

(** A journal entry that is a write to one of the collections. *)
Definition is_write_call (c : Call.t) : bool :=
  match c with
  | Call.Newsletter_insert _ | Call.Newsletter_save _ | Call.Notification_save _
  | Call.Newsletter_findByIdAndUpdate _ _ | Call.Newsletter_findByIdAndDelete _
  | Call.Notification_insertMany _ => true
  | _ => false
  end.

(** The documents of a batch that the store does not refuse. *)
Definition accepted (env : Env) (docs : list Notification.t)
    : list Notification.t :=
  List.filter (fun d => negb (write_error env d)) docs.

(** ** GET / : the newsletters of the caller's categories *)

Module Account.
(** The fields of a [User] document that the listing routes read. *)
Record t : Type := { _id : ObjectId; categories : option (list string) }.
End Account.

Module Listing.

Inductive Query : Type :=
| User_findById (id : ObjectId)
| Newsletter_find (categories : list string).

(** The [User] collection and which of the two queries reject. *)
Record Answers : Type := {
  User_accounts : list Account.t;
  refuses : Query -> bool }.

Inductive Reply : Type :=
| json_array (docs : list Newsletter.t)
| json_error (code : N) (message : string).

(** [User.findById(id)] on the collection. *)
Definition account_of (a : Answers) (id : ObjectId) : option Account.t :=
  List.find (fun u => Account._id u =? id) (User_accounts a).

(** [Newsletter.find({ category: { $in: categories } })] on the store. *)
Definition matching (categories : list string) (store : gmap N Newsletter.t)
    : list Newsletter.t :=
  List.filter (fun n => bool_decide (Newsletter.category n ∈ categories))
              (snd <$> map_to_list store).

(** The handler: its reply and the queries it made, each with whether it
    resolved. *)
Definition get_newsletters (a : Answers) (user : ObjectId) (w : World)
    : Reply * list (Query * bool) :=
  let failed := json_error 500 "Server error fetching newsletters." in
  if refuses a (User_findById user)
  then (failed, [(User_findById user, false)])
  else
    match account_of a user with
    | None => (json_array [], [(User_findById user, true)])
    | Some admin =>
        match Account.categories admin with
        | None | Some [] => (json_array [], [(User_findById user, true)])
        | Some categories =>
            if refuses a (Newsletter_find categories)
            then (failed, [ (User_findById user, true);
                            (Newsletter_find categories, false) ])
            else (json_array (matching categories (newsletters w)),
                  [ (User_findById user, true);
                    (Newsletter_find categories, true) ])
        end
    end.

End Listing.

(** ** [server/routes/news.js] *)

Module Topic.
(** The fields of a [Category] document that the news route reads. *)
Record t : Type := { name : string; keywords : option (list string) }.
End Topic.

Module News.

(** What a rejected promise carries: every error has a [message]; an error
    of the HTTP client for an answered request has a [response] as well,
    whose [data.message] may be missing. *)
Record Failure : Type := {
  response : option (option string);
  message : string }.

Inductive Request : Type :=
| User_findById (id : ObjectId)
| Category_find (names : list string)
| axios_get (q : string) (from : string) (apiKey : option string)
| model_generateContent (prompt : string).

(** The articles of NewsAPI are passed on as they come. *)
Record Answers (Item : Type) : Type := {
  User_accounts : list Account.t;
  Category_topics : list Topic.t;
  NEWS_API_KEY : option string;          (* process.env.NEWS_API_KEY *)
  GEMINI_API_KEY : bool;                 (* genAI is not null *)
  fromDate : string;   (* format(subDays(new Date(), 7), 'yyyy-MM-dd') *)
  outcome : Request -> option Failure;   (* [None]: the promise resolves *)
  data_articles : string -> list Item;   (* the articles NewsAPI has for q *)
  response_text : string -> string }.
Arguments User_accounts {Item}.
Arguments Category_topics {Item}.
Arguments NEWS_API_KEY {Item}.
Arguments GEMINI_API_KEY {Item}.
Arguments fromDate {Item}.
Arguments outcome {Item}.
Arguments data_articles {Item}.
Arguments response_text {Item}.

Inductive Reply (Item : Type) : Type :=
| json_articles (articles : list Item)
| json_summary (summary : string)
| json_message (code : N) (message : string)
| json_message_error (code : N) (message : string) (error : string).
Arguments json_articles {Item}.
Arguments json_summary {Item}.
Arguments json_message {Item}.
Arguments json_message_error {Item}.

(** The terms one category contributes: its keywords or, when it has
    none, its name in double quotes. *)
Definition terms_of (cat : Topic.t) : list string :=
  match Topic.keywords cat with
  | Some (k :: ks) => k :: ks
  | _ => [Js.dq +:+ Topic.name cat +:+ Js.dq]
  end.

(** [categories.flatMap(...)] *)
Definition allKeywords (categories : list Topic.t) : list string :=
  flat_map terms_of categories.

Definition query (categories : list Topic.t) : string :=
  Js.join " OR " (allKeywords categories).

(** [Category.find({ name: { $in: names } })] on the collection. *)
Definition topics_named {Item} (a : Answers Item) (names : list string)
    : list Topic.t :=
  List.filter (fun c => bool_decide (Topic.name c ∈ names)) (Category_topics a).

(** The [catch] block of GET /api/news. *)
Definition news_failure {Item} (err : Failure) : Reply Item :=
  match response err with
  | Some data_message =>
      json_message 500
        ("Failed to fetch news: " +:+ default "undefined" data_message)
  | None =>
      json_message_error 500 "Failed to fetch news from NewsAPI.org."
        (message err)
  end.

(** GET /api/news: the reply and the requests made, in order. *)
Definition get_news {Item} (a : Answers Item) (user : ObjectId)
    : Reply Item * list Request :=
  match outcome a (User_findById user) with
  | Some err => (news_failure err, [User_findById user])
  | None =>
      match List.find (fun u => Account._id u =? user) (User_accounts a) with
      | None => (json_articles [], [User_findById user])
      | Some admin =>
          match Account.categories admin with
          | None | Some [] => (json_articles [], [User_findById user])
          | Some names =>
              match outcome a (Category_find names) with
              | Some err =>
                  (news_failure err, [User_findById user; Category_find names])
              | None =>
                  let categories := topics_named a names in
                  let request :=
                    axios_get (query categories) (fromDate a) (NEWS_API_KEY a) in
                  let made :=
                    [User_findById user; Category_find names; request] in
                  match outcome a request with
                  | Some err => (news_failure err, made)
                  | None =>
                      (json_articles (data_articles a (query categories)), made)
                  end
              end
          end
      end
  end.

Definition summary_prompt (textToSummarize : string) : string :=
  "
            Generate a professional, newsletter-style summary of the following text.

            The summary must be:
            - Approximately 2-3 paragraphs long.
            - Engaging and informative for a professional audience.
            - It must capture the main topic, key findings, and important conclusions.
            - The tone should be objective and clear.
            - Do not start with conversational phrases.

            TEXT:
            "
    +:+ Js.dq
    +:+ Js.dq
    +:+ Js.dq
    +:+ "
            "
    +:+ textToSummarize
    +:+ "
            "
    +:+ Js.dq
    +:+ Js.dq
    +:+ Js.dq
    +:+ "

            SUMMARY:
        ".

(** POST /api/news/summarize; a missing [textToSummarize] is [None]. *)
Definition summarize {Item} (a : Answers Item) (textToSummarize : option string)
    : Reply Item * list Request :=
  if negb (GEMINI_API_KEY a)
  then (json_message 500
          "Gemini API client is not initialized. Please check your API key.",
        [])
  else
    match textToSummarize with
    | None => (json_message 400 "No text provided to summarize.", [])
    | Some text =>
        if Js.falsy text
        then (json_message 400 "No text provided to summarize.", [])
        else
          let prompt := summary_prompt text in
          match outcome a (model_generateContent prompt) with
          | Some err =>
              (json_message_error 500 "Failed to generate summary."
                 (message err),
               [model_generateContent prompt])
          | None =>
              (json_summary (response_text a prompt),
               [model_generateContent prompt])
          end
    end.

End News.

(** The call that hands a message to the mail provider. *)
Definition is_mail (c : Call.t) : bool :=
  match c with Call.sgMail_send _ => true | _ => false end.

(** The call that saves the notification of a generation. *)
Definition is_notification_save (c : Call.t) : bool :=
  match c with Call.Notification_save _ => true | _ => false end.

(** Whether, along a journal, some write to a collection is made while a
    launched browser is not yet closed; [live] counts the open ones. *)
Fixpoint writes_while_open (live : nat) (j : list (Call.t * bool)) : bool :=
  match j with
  | [] => false
  | e :: rest =>
      (is_write_call (fst e) && negb (Nat.eqb live 0))
      || writes_while_open
           (if is_launch e then S live
            else if is_close e then Nat.pred live
            else live)
           rest
  end.

(** The journal entries a handler added. *)
Definition calls_since (w w' : World) : list (Call.t * bool) :=
  drop (List.length (journal w)) (journal w').

(** ** More sample data *)

Module Fixture.

(** The same process without a mail provider. *)
Definition without_provider (e : Env) : Env :=
  {| SENDGRID_API_KEY := false;
     FROM_EMAIL := FROM_EMAIL e;
     GEMINI_API_KEY := GEMINI_API_KEY e;
     now := now e;
     User_collection := User_collection e;
     Category_collection := Category_collection e;
     rejects := rejects e;
     response_text := response_text e;
     pdf_of := pdf_of e;
     new_ObjectId := new_ObjectId e;
     write_error := write_error e |}.

(** The same process with no generation client. *)
Definition without_generator (e : Env) : Env :=
  {| SENDGRID_API_KEY := SENDGRID_API_KEY e;
     FROM_EMAIL := FROM_EMAIL e;
     GEMINI_API_KEY := false;
     now := now e;
     User_collection := User_collection e;
     Category_collection := Category_collection e;
     rejects := rejects e;
     response_text := response_text e;
     pdf_of := pdf_of e;
     new_ObjectId := new_ObjectId e;
     write_error := write_error e |}.

(** The same process with a store that refuses the notifications [p] picks. *)
Definition refusing (p : Notification.t -> bool) (e : Env) : Env :=
  {| SENDGRID_API_KEY := SENDGRID_API_KEY e;
     FROM_EMAIL := FROM_EMAIL e;
     GEMINI_API_KEY := GEMINI_API_KEY e;
     now := now e;
     User_collection := User_collection e;
     Category_collection := Category_collection e;
     rejects := rejects e;
     response_text := response_text e;
     pdf_of := pdf_of e;
     new_ObjectId := new_ObjectId e;
     write_error := p |}.

(** The same process whose next new document gets the identity [id]. *)
Definition making (id : ObjectId) (e : Env) : Env :=
  {| SENDGRID_API_KEY := SENDGRID_API_KEY e;
     FROM_EMAIL := FROM_EMAIL e;
     GEMINI_API_KEY := GEMINI_API_KEY e;
     now := now e;
     User_collection := User_collection e;
     Category_collection := Category_collection e;
     rejects := rejects e;
     response_text := response_text e;
     pdf_of := pdf_of e;
     new_ObjectId := id;
     write_error := write_error e |}.

(** The same process with a renderer that exports the buffer [bytes]. *)
Definition exporting (bytes : list Byte.byte) (e : Env) : Env :=
  {| SENDGRID_API_KEY := SENDGRID_API_KEY e;
     FROM_EMAIL := FROM_EMAIL e;
     GEMINI_API_KEY := GEMINI_API_KEY e;
     now := now e;
     User_collection := User_collection e;
     Category_collection := Category_collection e;
     rejects := rejects e;
     response_text := response_text e;
     pdf_of := fun _ => bytes;
     new_ObjectId := new_ObjectId e;
     write_error := write_error e |}.

Definition quiet : Env :=
  Sample.env Sample.today Sample.fenced Sample.all_resolve.

(** A request whose title holds the control character DEL. *)
Definition body_with_DEL : GenerateBody :=
  {| body_articles := Some [Sample.article];
     body_title := Some ("A" +:+ String "127"%char "B");
     body_category := Some "Tech" |}.

Definition for_user (id : ObjectId) (d : Notification.t) : bool :=
  Notification.user d =? id.

Definition notification_save_fails (c : Call.t) : bool :=
  match c with Call.Notification_save _ => true | _ => false end.

Definition match_day : Newsletter.t :=
  {| Newsletter._id := 2;
     Newsletter.title := "Match Day";
     Newsletter.category := "Sports";
     Newsletter.status := "Not Sent";
     Newsletter.articles := [8; 9];
     Newsletter.recipients := [];
     Newsletter.pdfContent :=
       {| PdfContent.data := Some Sample.pdf;
          PdfContent.contentType := Some "application/pdf" |};
     Newsletter.htmlContent := Some Sample.markup |}.

(** A store with a Tech and a Sports newsletter. *)
Definition shelf : World :=
  {| newsletters := {[ 1 := Sample.newsletter "approved"; 2 := match_day ]};
     notifications := [];
     journal := [] |}.

Definition accounts : list Account.t :=
  [ {| Account._id := 5; Account.categories := Some ["Tech"] |};
    {| Account._id := 6; Account.categories := Some [] |};
    {| Account._id := 8; Account.categories := None |};
    {| Account._id := 9; Account.categories := Some ["Gardening"] |} ].

Definition listing : Listing.Answers :=
  {| Listing.User_accounts := accounts; Listing.refuses := fun _ => false |}.

Definition topics : list Topic.t :=
  [ {| Topic.name := "Tech"; Topic.keywords := Some ["AI"; "chips"] |};
    {| Topic.name := "Sports"; Topic.keywords := Some [] |};
    {| Topic.name := "Local News"; Topic.keywords := None |} ].

Definition quota_exceeded : News.Failure :=
  {| News.response := Some (Some "You have made too many requests.");
     News.message := "Request failed with status code 429" |}.

Definition store_down : News.Failure :=
  {| News.response := None; News.message := "connection refused" |}.

(** NewsAPI answering with the query itself as its one article. *)
Definition news (outcome : News.Request -> option News.Failure)
    : News.Answers string :=
  {| News.User_accounts := accounts;
     News.Category_topics := topics;
     News.NEWS_API_KEY := Some "k";
     News.GEMINI_API_KEY := true;
     News.fromDate := "2026-10-25";
     News.outcome := outcome;
     News.data_articles := fun q => [q];
     News.response_text := fun _ => "A summary." |}.

Definition all_fine : News.Request -> option News.Failure := fun _ => None.

Definition api_fails (r : News.Request) : option News.Failure :=
  match r with News.axios_get _ _ _ => Some quota_exceeded | _ => None end.

Definition lookup_fails (r : News.Request) : option News.Failure :=
  match r with News.User_findById _ => Some store_down | _ => None end.

Definition generator_fails (r : News.Request) : option News.Failure :=
  match r with News.model_generateContent _ => Some store_down | _ => None end.

End Fixture.

(** ** Laws of the monad and of the external calls *)

Section Laws.

Context (env : Env).

Lemma bind_returned {A B} (m : M A) (k : A -> M B) w a w' :
  m w = (Returned a, w') -> bind m k w = k a w'.
Proof. intros H. unfold bind. now rewrite H. Qed.

Lemma bind_thrown {A B} (m : M A) (k : A -> M B) w e w' :
  m w = (Thrown e, w') -> bind m k w = (Thrown e, w').
Proof. intros H. unfold bind. now rewrite H. Qed.

Lemma try_catch_returned {A} (m : M A) h w a w' :
  m w = (Returned a, w') -> try_catch m h w = (Returned a, w').
Proof. intros H. unfold try_catch. now rewrite H. Qed.

Lemma try_catch_thrown {A} (m : M A) h w e w' :
  m w = (Thrown e, w') -> try_catch m h w = h e w'.
Proof. intros H. unfold try_catch. now rewrite H. Qed.

Lemma await_resolves c w :
  rejects env c = false -> await env c w = (Returned tt, record_call c true w).
Proof. intros H. unfold await. now rewrite H. Qed.

Lemma await_rejects c w :
  rejects env c = true ->
  await env c w = (Thrown (Rejected c), record_call c false w).
Proof. intros H. unfold await. now rewrite H. Qed.

End Laws.

Lemma falsy_empty s : Js.falsy s = true <-> s = "".
Proof. destruct s; simpl; split; congruence. Qed.

Lemma unusable_spec html :
  unusable html = true <-> html = "" \/ (String.length html < 100)%nat.
Proof.
  unfold unusable, Js.length. rewrite orb_true_iff, falsy_empty, N.ltb_lt.
  split; (intros [H | H]; [now left | right; lia]).
Qed.

(** *** Strings *)

Lemma append_cancel_l s a b : s +:+ a = s +:+ b -> a = b.
Proof.
  induction s as [| c s IH]; cbn [String.append]; [auto |].
  intros H. injection H as H. auto.
Qed.

Lemma length_append a b :
  String.length (a +:+ b) = (String.length a + String.length b)%nat.
Proof.
  induction a as [| c a IH]; [reflexivity |].
  simpl. f_equal. exact IH.
Qed.

Lemma append_cancel_r r a b : a +:+ r = b +:+ r -> a = b.
Proof.
  intros H.
  assert (Hlen : String.length a = String.length b).
  { apply (f_equal String.length) in H. rewrite !length_append in H. lia. }
  revert b H Hlen. induction a as [| c a IH]; intros [| d b] H Hlen;
    try discriminate Hlen; [reflexivity |].
  cbn [String.append] in H. injection H as -> H.
  f_equal. apply IH; [exact H |]. cbn in Hlen. lia.
Qed.

(** *** The code fence *)

Lemma strip_prefix_append p s : Js.strip_prefix p (p +:+ s) = Some s.
Proof.
  induction p as [| c p IH]; [reflexivity |].
  simpl. now rewrite Ascii.eqb_refl.
Qed.

Lemma eqb_longer c s q : (String c (s +:+ q) =? q)%string = false.
Proof.
  apply String.eqb_neq. intros H. apply (f_equal String.length) in H.
  simpl in H. rewrite length_append in H. lia.
Qed.

Lemma strip_suffix_append q s : Js.strip_suffix q (s +:+ q) = Some s.
Proof.
  induction s as [| c s IH].
  - destruct q; simpl; [reflexivity |]. now rewrite Ascii.eqb_refl, String.eqb_refl.
  - change (String c s +:+ q) with (String c (s +:+ q)).
    change (Js.strip_suffix q (String c (s +:+ q)))
      with (if (String c (s +:+ q) =? q)%string then Some EmptyString
            else String c <$> Js.strip_suffix q (s +:+ q)).
    now rewrite eqb_longer, IH.
Qed.

(** A document wrapped in the fence the service adds comes out bare. *)
Lemma strip_code_fence_fenced html :
  strip_code_fence ("```html" +:+ Js.nl +:+ html +:+ Js.nl +:+ "```") = html.
Proof.
  unfold strip_code_fence, Js.replace_at_start, Js.replace_at_end.
  change ("```html" +:+ Js.nl +:+ html +:+ Js.nl +:+ "```")
    with (("```html" +:+ Js.nl) +:+ (html +:+ (Js.nl +:+ "```"))).
  rewrite strip_prefix_append. cbn [from_option Datatypes.id].
  now rewrite strip_suffix_append.
Qed.

Lemma complete_false body :
  complete body = true ->
  no_articles (body_articles body) || not_given (body_title body)
  || not_given (body_category body) = false.
Proof. unfold complete. now rewrite negb_true_iff. Qed.

(** Runs the monadic skeleton of a handler, leaving the answers of the
    outside world and the data untouched. *)
Ltac run_handler :=
  cbv beta iota zeta delta
    [ try_catch bind ret throw gets modify await
      Category_findOne model_generateContent puppeteer_launch browser_newPage
      page_setContent page_pdf browser_close Newsletter_insert Newsletter_save
      Newsletter_findById Newsletter_findByIdAndUpdate
      Newsletter_findByIdAndDelete User_find sgMail_send Notification_save
      Notification_insertMany check_generated setHeader ].

Ltac expose_request H :=
  cbv beta zeta delta [prompt_for generated_for] in H.

(** ** [addToSet] *)

Lemma addToSet_cons array v values :
  addToSet array (v :: values)
  = addToSet (if decide (v ∈ array) then array else (array ++ [v])%list) values.
Proof. reflexivity. Qed.

Lemma elem_of_addToSet x array values :
  x ∈ addToSet array values <-> x ∈ array \/ x ∈ values.
Proof.
  revert array. induction values as [|v values IH]; intros array.
  - cbn. rewrite elem_of_nil. tauto.
  - rewrite addToSet_cons, IH, elem_of_cons.
    destruct (decide (v ∈ array)) as [Hin | Hout].
    + split; [tauto |]. intros [H | [-> | H]]; auto.
    + rewrite elem_of_app, list_elem_of_singleton. tauto.
Qed.

Lemma NoDup_addToSet array values :
  NoDup array -> NoDup (addToSet array values).
Proof.
  revert array. induction values as [|v values IH]; intros array Hnd; [exact Hnd |].
  rewrite addToSet_cons. apply IH.
  destruct (decide (v ∈ array)) as [Hin | Hout]; [exact Hnd |].
  apply NoDup_app. split; [exact Hnd |]. split.
  - intros x Hx Hv. apply list_elem_of_singleton in Hv. now subst.
  - apply NoDup_singleton.
Qed.

Lemma addToSet_prefix array values : array `prefix_of` addToSet array values.
Proof.
  revert array. induction values as [|v values IH]; intros array; [reflexivity |].
  rewrite addToSet_cons.
  destruct (decide (v ∈ array)); [apply IH |].
  etransitivity; [| apply IH]. now apply prefix_app_r.
Qed.

Lemma addToSet_union array values :
  list_to_set (addToSet array values)
  =@{gset N} list_to_set array ∪ list_to_set values.
Proof.
  apply set_eq. intros x.
  rewrite elem_of_union, !elem_of_list_to_set. apply elem_of_addToSet.
Qed.

(** ** POST /:id/send *)

Lemma some_recipients userIds :
  userIds <> [] -> no_recipients (Some userIds) = false.
Proof. now destruct userIds. Qed.

Lemma delivery_passes_without_provider env newsletter userIds :
  SENDGRID_API_KEY env = false -> delivery_passes env newsletter userIds = true.
Proof. intros H. unfold delivery_passes. now rewrite H. Qed.

Lemma delivery_passes_when_accepted env newsletter userIds :
  rejects env (Call.User_find userIds) = false ->
  rejects env (Call.sgMail_send (mail_for env newsletter (resolved env userIds)))
  = false ->
  delivery_passes env newsletter userIds = true.
Proof.
  intros Husers Hmail. unfold delivery_passes. rewrite Husers, Hmail.
  destruct (SENDGRID_API_KEY env); [| reflexivity].
  now destruct (0 <? _).
Qed.

Lemma nonempty_length {A} (l : list A) :
  l <> [] -> (0 <? N.of_nat (List.length l)) = true.
Proof. destruct l; [congruence |]. intros _. reflexivity. Qed.

(** The three ways the notification batch can end leave the response and
    the newsletters alike. *)
Ltac finish_send :=
  match goal with
  | |- context [rejects ?e (Call.Notification_insertMany ?docs)] =>
      destruct (rejects e (Call.Notification_insertMany docs));
      [| destruct (forallb (fun d => negb (write_error e d)) docs)]
  end;
    (split; [reflexivity | split; [reflexivity |]]);
    cbn [fst snd journal record_call add_notifications set_newsletters orb negb];
    first [ intros _; apply last_snoc | intros Hno; discriminate Hno ].

(** Once the record is found, delivery passes and the save resolves, the
    caller gets the success response and the store holds the saved
    document, whatever becomes of the notifications. *)
Lemma send_completes env id userIds w newsletter :
  userIds <> [] ->
  rejects env (Call.Newsletter_findById id) = false ->
  newsletters w !! id = Some newsletter ->
  delivery_passes env newsletter userIds = true ->
  rejects env (Call.Newsletter_save (sent_doc newsletter userIds)) = false ->
  fst (send env id (Some userIds) w) = Returned (res_json 200 (sent_message userIds))
  /\ newsletters (snd (send env id (Some userIds) w))
     = <[Newsletter._id newsletter := sent_doc newsletter userIds]> (newsletters w)
  /\ (batch_fails env (batch_for newsletter userIds) = true ->
      last (journal (snd (send env id (Some userIds) w)))
      = Some (Call.Notification_insertMany (batch_for newsletter userIds), false)).
Proof.
  intros Hne Hfind Hlook Hpass Hsave.
  unfold send. rewrite (some_recipients _ Hne). cbn [from_option Datatypes.id].
  unfold delivery_passes, resolved in Hpass.
  unfold batch_fails, batch_for, sent_doc in *.
  run_handler. rewrite Hfind. cbn [newsletters record_call]. rewrite Hlook.
  cbn [Newsletter.recipients Newsletter.set_status]. rewrite Hsave.
  rewrite length_map, (nonempty_length _ Hne).
  destruct (SENDGRID_API_KEY env).
  - destruct (rejects env (Call.User_find userIds)); [discriminate Hpass |].
    cbn [negb andb] in Hpass.
    destruct (0 <? N.of_nat (List.length _)).
    + apply negb_true_iff in Hpass. rewrite Hpass. finish_send.
    + finish_send.
  - finish_send.
Qed.

(** C1.  A send with a non-empty recipient list whose delivery call is
    refused by the provider aborts as a whole: the caller gets the failure
    response (status 500), the newsletter keeps its status and its
    recipients (the whole collection is as before), and no notification is
    written. *)
Theorem send_aborts_on_delivery_failure env id userIds w newsletter :
  userIds <> [] ->
  rejects env (Call.Newsletter_findById id) = false ->
  newsletters w !! id = Some newsletter ->
  SENDGRID_API_KEY env = true ->
  rejects env (Call.User_find userIds) = false ->
  resolved env userIds <> [] ->
  rejects env (Call.sgMail_send (mail_for env newsletter (resolved env userIds)))
  = true ->
  fst (send env id (Some userIds) w)
  = Returned (res_json 500 "Failed to send newsletter due to a server error.")
  /\ newsletters (snd (send env id (Some userIds) w)) = newsletters w
  /\ newsletters (snd (send env id (Some userIds) w)) !! id = Some newsletter
  /\ notifications (snd (send env id (Some userIds) w)) = notifications w.
Proof.
  intros Hne Hfind Hlook Hkey Husers Hres Hmail.
  apply nonempty_length in Hres. unfold resolved in Hres, Hmail.
  unfold send. rewrite (some_recipients _ Hne). cbn [from_option Datatypes.id].
  run_handler. rewrite Hfind. cbn [newsletters record_call]. rewrite Hlook, Hkey.
  rewrite Husers, Hres, Hmail. cbn [fst snd newsletters notifications].
  auto.
Qed.

Lemma send_aborts_on_delivery_failure_witness :
  let env := Sample.env Sample.today Sample.fenced Sample.mail_refused in
  let w := Sample.library "approved" in
  fst (send env 1 (Some [11; 12]) w)
  = Returned (res_json 500 "Failed to send newsletter due to a server error.")
  /\ newsletters (snd (send env 1 (Some [11; 12]) w)) = newsletters w
  /\ newsletters (snd (send env 1 (Some [11; 12]) w)) !! 1
     = Some (Sample.newsletter "approved")
  /\ notifications (snd (send env 1 (Some [11; 12]) w)) = notifications w.
Proof.
  intros env w.
  apply (send_aborts_on_delivery_failure env 1 [11; 12] w
           (Sample.newsletter "approved")).
  - discriminate.
  - reflexivity.
  - reflexivity.
  - reflexivity.
  - reflexivity.
  - vm_compute. discriminate.
  - reflexivity.
Defined.

(** C2.  A send with a non-empty recipient list, when delivery passes (the
    provider accepts, or none is configured), leaves the newsletter with
    status [sent] and, as its recipient set, the union of the set it had
    and the given identities; duplicates collapse, and what was a
    recipient stays one. *)
Theorem send_merges_recipients env id userIds w newsletter :
  userIds <> [] ->
  rejects env (Call.Newsletter_findById id) = false ->
  newsletters w !! id = Some newsletter ->
  Newsletter._id newsletter = id ->
  delivery_passes env newsletter userIds = true ->
  rejects env (Call.Newsletter_save (sent_doc newsletter userIds)) = false ->
  exists after,
    newsletters (snd (send env id (Some userIds) w)) !! id = Some after
    /\ Newsletter.status after = "sent"
    /\ list_to_set (Newsletter.recipients after)
       =@{gset N} list_to_set (Newsletter.recipients newsletter)
                  ∪ list_to_set userIds
    /\ (NoDup (Newsletter.recipients newsletter) ->
        NoDup (Newsletter.recipients after))
    /\ (forall x, x ∈ Newsletter.recipients newsletter ->
                  x ∈ Newsletter.recipients after).
Proof.
  intros Hne Hfind Hlook Hid Hpass Hsave.
  destruct (send_completes env id userIds w newsletter) as (_ & Hstore & _);
    try assumption.
  exists (sent_doc newsletter userIds).
  rewrite Hstore, Hid, lookup_insert_eq.
  split; [reflexivity |]. split; [reflexivity |].
  cbn [sent_doc Newsletter.recipients Newsletter.set_recipients].
  split; [apply addToSet_union |]. split; [apply NoDup_addToSet |].
  intros x Hx. apply elem_of_addToSet. now left.
Qed.

Lemma send_merges_recipients_witness :
  let env := Sample.env Sample.today Sample.fenced Sample.all_resolve in
  exists after,
    newsletters (snd (send env 1 (Some [11; 12; 12]) (Sample.library "approved")))
      !! 1 = Some after
    /\ Newsletter.status after = "sent"
    /\ list_to_set (Newsletter.recipients after)
       =@{gset N} list_to_set [10; 11] ∪ list_to_set [11; 12; 12]
    /\ (NoDup [10; 11] -> NoDup (Newsletter.recipients after))
    /\ (forall x, x ∈ [10; 11] -> x ∈ Newsletter.recipients after).
Proof.
  intros env.
  apply (send_merges_recipients env 1 [11; 12; 12] (Sample.library "approved")
           (Sample.newsletter "approved")).
  - discriminate.
  - reflexivity.
  - reflexivity.
  - reflexivity.
  - vm_compute. reflexivity.
  - reflexivity.
Defined.

(** ** PATCH /:id/status *)

Lemma patch_status_found env id status w doc :
  rejects env (Call.Newsletter_findByIdAndUpdate id status) = false ->
  newsletters w !! id = Some doc ->
  patch_status env id status w
  = (Returned {| statusCode := 200;
                 body := json_doc (Some (Newsletter.set_status status doc)) |},
     set_newsletters (insert id (Newsletter.set_status status doc))
       (record_call (Call.Newsletter_findByIdAndUpdate id status) true w)).
Proof.
  intros Hcall Hlook. unfold patch_status. run_handler.
  rewrite Hcall. cbn [newsletters record_call]. now rewrite Hlook.
Qed.

Lemma patch_status_store env id status w :
  newsletters (snd (patch_status env id status w))
  = match newsletters w !! id with
    | Some doc =>
        if rejects env (Call.Newsletter_findByIdAndUpdate id status)
        then newsletters w
        else <[id := Newsletter.set_status status doc]> (newsletters w)
    | None => newsletters w
    end.
Proof.
  unfold patch_status. run_handler.
  destruct (rejects env _); cbn [newsletters record_call snd];
    [now destruct (newsletters w !! id) |].
  now destruct (newsletters w !! id).
Qed.

(** C5.  Whatever status the status update wrote to an existing newsletter
    (the terminal [declined] included), a send that then succeeds leaves
    the status at [sent]. *)
Theorem send_overrides_any_status env1 env2 id status userIds w newsletter :
  newsletters w !! id = Some newsletter ->
  Newsletter._id newsletter = id ->
  userIds <> [] ->
  rejects env1 (Call.Newsletter_findByIdAndUpdate id status) = false ->
  rejects env2 (Call.Newsletter_findById id) = false ->
  delivery_passes env2 (Newsletter.set_status status newsletter) userIds = true ->
  rejects env2
    (Call.Newsletter_save (sent_doc (Newsletter.set_status status newsletter) userIds))
  = false ->
  let w1 := snd (patch_status env1 id status w) in
  let w2 := snd (send env2 id (Some userIds) w1) in
  Newsletter.status <$> newsletters w1 !! id = Some status
  /\ Newsletter.status <$> newsletters w2 !! id = Some "sent".
Proof.
  intros Hlook Hid Hne Hpatch Hfind Hpass Hsave w1 w2.
  assert (Hw1 : newsletters w1 !! id = Some (Newsletter.set_status status newsletter)).
  { subst w1. rewrite (patch_status_found _ _ _ _ _ Hpatch Hlook).
    cbn [snd newsletters set_newsletters]. apply lookup_insert_eq. }
  split; [now rewrite Hw1 |].
  destruct (send_completes env2 id userIds w1 (Newsletter.set_status status newsletter))
    as (_ & Hstore & _); try assumption.
  subst w2. rewrite Hstore. cbn [Newsletter._id Newsletter.set_status].
  rewrite Hid, lookup_insert_eq. reflexivity.
Qed.

Lemma send_overrides_any_status_witness :
  let env := Sample.env Sample.today Sample.fenced Sample.all_resolve in
  let w1 := snd (patch_status env 1 "declined" (Sample.library "approved")) in
  let w2 := snd (send env 1 (Some [12]) w1) in
  Newsletter.status <$> newsletters w1 !! 1 = Some "declined"
  /\ Newsletter.status <$> newsletters w2 !! 1 = Some "sent".
Proof.
  intros env.
  apply (send_overrides_any_status env env 1 "declined" [12]
           (Sample.library "approved") (Sample.newsletter "approved")).
  - reflexivity.
  - reflexivity.
  - discriminate.
  - reflexivity.
  - reflexivity.
  - vm_compute. reflexivity.
  - reflexivity.
Defined.

(** C10.  A status update whose identity matches no stored newsletter
    creates and modifies nothing, and (the store call resolving) answers
    200 with a null body rather than a not-found failure. *)
Theorem patch_status_unknown_id env id status w :
  newsletters w !! id = None ->
  newsletters (snd (patch_status env id status w)) = newsletters w
  /\ notifications (snd (patch_status env id status w)) = notifications w
  /\ (rejects env (Call.Newsletter_findByIdAndUpdate id status) = false ->
      fst (patch_status env id status w)
      = Returned {| statusCode := 200; body := json_doc None |}).
Proof.
  intros Hlook. unfold patch_status. run_handler.
  destruct (rejects env _); cbn [newsletters record_call]; rewrite ?Hlook;
    cbn [fst snd newsletters notifications record_call];
    (split; [reflexivity | split; [reflexivity |]]);
    [discriminate | reflexivity].
Qed.

Lemma patch_status_unknown_id_witness :
  let env := Sample.env Sample.today Sample.fenced Sample.all_resolve in
  let w := Sample.library "approved" in
  newsletters (snd (patch_status env 2 "sent" w)) = newsletters w
  /\ notifications (snd (patch_status env 2 "sent" w)) = notifications w
  /\ (rejects env (Call.Newsletter_findByIdAndUpdate 2 "sent") = false ->
      fst (patch_status env 2 "sent" w)
      = Returned {| statusCode := 200; body := json_doc None |}).
Proof.
  intros env w. apply (patch_status_unknown_id env 2 "sent" w). reflexivity.
Defined.

(** C6.  When delivery and the save succeed but writing the notification
    batch throws, the send still answers with the success response, and a
    later read of the newsletter returns it with status [sent] and the
    merged recipients; the journal ends with the failed batch write. *)
Theorem notification_failure_is_not_fatal env id userIds w newsletter :
  userIds <> [] ->
  rejects env (Call.Newsletter_findById id) = false ->
  newsletters w !! id = Some newsletter ->
  Newsletter._id newsletter = id ->
  delivery_passes env newsletter userIds = true ->
  rejects env (Call.Newsletter_save (sent_doc newsletter userIds)) = false ->
  batch_fails env (batch_for newsletter userIds) = true ->
  let w' := snd (send env id (Some userIds) w) in
  fst (send env id (Some userIds) w)
  = Returned (res_json 200 (sent_message userIds))
  /\ last (journal w')
     = Some (Call.Notification_insertMany (batch_for newsletter userIds), false)
  /\ (forall env',
        rejects env' (Call.Newsletter_findById id) = false ->
        exists after,
          fst (Newsletter_findById env' id w') = Returned (Some after)
          /\ Newsletter.status after = "sent"
          /\ Newsletter.recipients after
             = addToSet (Newsletter.recipients newsletter) userIds).
Proof.
  intros Hne Hfind Hlook Hid Hpass Hsave Hbatch w'.
  destruct (send_completes env id userIds w newsletter)
    as (Hres & Hstore & Hlast); try assumption.
  split; [exact Hres |]. split; [now apply Hlast |].
  intros env' Hread. exists (sent_doc newsletter userIds).
  split; [| split; reflexivity].
  unfold Newsletter_findById. run_handler. rewrite Hread.
  cbn [fst newsletters record_call]. subst w'.
  rewrite Hstore, Hid, lookup_insert_eq. reflexivity.
Qed.

Lemma notification_failure_is_not_fatal_witness :
  let env := Sample.env Sample.today Sample.fenced Sample.batch_refused in
  let w' := snd (send env 1 (Some [11; 12]) (Sample.library "approved")) in
  fst (send env 1 (Some [11; 12]) (Sample.library "approved"))
  = Returned (res_json 200 (sent_message [11; 12]))
  /\ last (journal w')
     = Some (Call.Notification_insertMany
               (batch_for (Sample.newsletter "approved") [11; 12]), false)
  /\ (forall env',
        rejects env' (Call.Newsletter_findById 1) = false ->
        exists after,
          fst (Newsletter_findById env' 1 w') = Returned (Some after)
          /\ Newsletter.status after = "sent"
          /\ Newsletter.recipients after = addToSet [10; 11] [11; 12]).
Proof.
  intros env.
  apply (notification_failure_is_not_fatal env 1 [11; 12]
           (Sample.library "approved") (Sample.newsletter "approved")).
  - discriminate.
  - reflexivity.
  - reflexivity.
  - reflexivity.
  - vm_compute. reflexivity.
  - reflexivity.
  - reflexivity.
Defined.

(** ** POST /generate-and-save *)

Ltac case_on_answers :=
  repeat match goal with
         | |- context [if ?b then _ else _] => destruct b eqn:?
         end.

(** What a run of the pipeline does to the newsletters: nothing, or, when
    the text was usable and every step of the renderer resolved, one new
    document under an identity that was free. *)
Lemma generate_and_save_store env user body w :
  let w' := snd (generate_and_save env user body w) in
  newsletters w' = newsletters w
  \/ (unusable (generated_for env body) = false
      /\ render_fails env (generated_for env body) = false
      /\ newsletters w !! new_ObjectId env = None
      /\ newsletters w'
         = <[new_ObjectId env := new_newsletter env body]> (newsletters w)).
Proof.
  unfold generate_and_save. run_handler.
  cbn [newsletters record_call Newsletter._id].
  case_on_answers; cbn [snd newsletters record_call set_newsletters add_notifications];
    try (left; reflexivity).
  all: right.
  all: match goal with
       | H : _ || bool_decide _ = false |- _ =>
           apply orb_false_elim in H; destruct H as [_ Hfree];
           cbn [newsletters record_call] in Hfree;
           apply bool_decide_eq_false in Hfree;
           rewrite <- eq_None_not_Some in Hfree
       end.
  all: split; [assumption |].
  all: split; [| split; [exact Hfree | reflexivity]].
  all: unfold render_fails, generated_for, prompt_for.
  all: repeat match goal with H : rejects _ _ = false |- _ => rewrite H end.
  all: reflexivity.
Qed.

(** ** What each handler does to the newsletters *)

Lemma download_store env id w :
  newsletters (snd (download env id w)) = newsletters w.
Proof.
  unfold download. run_handler.
  destruct (rejects env _); cbn [newsletters record_call]; [reflexivity |].
  destruct (newsletters w !! id) as [doc |]; [| reflexivity].
  destruct (PdfContent.data _); [| reflexivity].
  destruct (PdfContent.contentType _); [| reflexivity].
  case_on_answers; reflexivity.
Qed.

Lemma delete_newsletter_store env id w :
  newsletters (snd (delete_newsletter env id w)) = newsletters w
  \/ newsletters (snd (delete_newsletter env id w)) = delete id (newsletters w).
Proof.
  unfold delete_newsletter. run_handler.
  destruct (rejects env _); cbn [newsletters record_call]; [now left |].
  right. now destruct (newsletters w !! id).
Qed.

Lemma send_store env id body_userIds w :
  newsletters (snd (send env id body_userIds w)) = newsletters w
  \/ exists doc userIds,
       newsletters w !! id = Some doc
       /\ newsletters (snd (send env id body_userIds w))
          = <[Newsletter._id doc := sent_doc doc userIds]> (newsletters w).
Proof.
  unfold send. destruct (no_recipients body_userIds); [now left |].
  run_handler. destruct (rejects env (Call.Newsletter_findById id));
    cbn [newsletters record_call]; [now left |].
  destruct (newsletters w !! id) as [doc |]; [| now left].
  cbn [Newsletter.recipients Newsletter.set_status].
  case_on_answers;
    cbn [snd newsletters record_call set_newsletters add_notifications];
    first [ now left | right; eexists _, _; split; reflexivity ].
Qed.

(** ** Invariants of the reachable worlds *)

Lemma generated_all_or_nothing n : generated n -> all_or_nothing n.
Proof.
  intros [Hdata (html & Hhtml & _)]. unfold all_or_nothing.
  rewrite Hhtml. split; intros _; [eauto | exact Hdata].
Qed.

Lemma generated_set_status s n : generated n -> generated (Newsletter.set_status s n).
Proof. intros H. exact H. Qed.

Lemma generated_sent_doc n userIds : generated n -> generated (sent_doc n userIds).
Proof. intros H. exact H. Qed.

Lemma generated_new_newsletter env body :
  unusable (generated_for env body) = false -> generated (new_newsletter env body).
Proof.
  intros Husable. split; [cbn; eauto |].
  exists (generated_for env body). split; [reflexivity |].
  destruct (Nat.lt_ge_cases (String.length (generated_for env body)) 100)
    as [Hshort | Hlong]; [| exact Hlong].
  assert (unusable (generated_for env body) = true) as Hyes
    by (apply unusable_spec; now right).
  congruence.
Qed.

(** One request keeps a property of the stored records that the pipeline's
    new document has and that the two updates preserve. *)
Lemma handle_preserves (P : N -> Newsletter.t -> Prop) env r w :
  (forall body, unusable (generated_for env body) = false ->
                P (new_ObjectId env) (new_newsletter env body)) ->
  (forall k s n, P k n -> P k (Newsletter.set_status s n)) ->
  (forall k n userIds, P k n -> P (Newsletter._id n) (sent_doc n userIds)) ->
  map_Forall P (newsletters w) ->
  map_Forall P (newsletters (snd (handle env r w))).
Proof.
  intros Hnew Hstatus Hsent Hw. destruct r as [user body | id | id s | id | id ids];
    cbn [handle].
  - destruct (generate_and_save_store env user body w)
      as [-> | (Husable & _ & _ & ->)]; [exact Hw |].
    apply map_Forall_insert_2; auto.
  - now rewrite download_store.
  - rewrite patch_status_store.
    destruct (newsletters w !! id) as [doc |] eqn:Hdoc; [| exact Hw].
    destruct (rejects env _); [exact Hw |].
    apply map_Forall_insert_2; [| exact Hw]. apply Hstatus. exact (Hw _ _ Hdoc).
  - destruct (delete_newsletter_store env id w) as [-> | ->]; [exact Hw |].
    now apply map_Forall_delete.
  - destruct (send_store env id ids w) as [-> | (doc & userIds & Hdoc & ->)];
      [exact Hw |].
    apply map_Forall_insert_2; [| exact Hw]. apply (Hsent id). exact (Hw _ _ Hdoc).
Qed.

Lemma reachable_generated w :
  reachable w -> map_Forall (fun _ n => generated n) (newsletters w).
Proof.
  induction 1 as [| env r w _ IH]; [apply map_Forall_empty |].
  apply handle_preserves; auto using generated_new_newsletter.
Qed.

Lemma reachable_well_keyed w : reachable w -> well_keyed w.
Proof.
  unfold well_keyed.
  induction 1 as [| env r w _ IH]; [apply map_Forall_empty |].
  apply handle_preserves; auto.
Qed.

(** C7.  A run of the generation pipeline whose render step fails persists
    no Newsletter record (the collection is as before); and in every world
    the router can reach, each stored record has its artifact and its
    markup both present or both absent. *)
Theorem generation_is_all_or_nothing :
  (forall env user body w,
     render_fails env (generated_for env body) = true ->
     newsletters (snd (generate_and_save env user body w)) = newsletters w)
  /\ (forall w,
        reachable w -> map_Forall (fun _ n => all_or_nothing n) (newsletters w)).
Proof.
  split.
  - intros env user body w Hfails.
    destruct (generate_and_save_store env user body w)
      as [Hsame | (_ & Hrender & _)]; [exact Hsame | congruence].
  - intros w Hw. eapply map_Forall_impl; [apply reachable_generated, Hw |].
    intros k n. apply generated_all_or_nothing.
Qed.

Lemma generation_is_all_or_nothing_witness :
  newsletters
    (snd (generate_and_save
            (Sample.env Sample.today Sample.fenced Sample.load_fails) 5
            Sample.body (Sample.library "sent")))
  = newsletters (Sample.library "sent")
  /\ map_Forall (fun _ n => all_or_nothing n)
       (newsletters
          (snd (handle (Sample.env Sample.today Sample.fenced Sample.all_resolve)
                  (POST_generate_and_save 5 Sample.body) empty_world))).
Proof.
  split.
  - apply (proj1 generation_is_all_or_nothing). vm_compute. reflexivity.
  - apply (proj2 generation_is_all_or_nothing).
    apply reachable_step, reachable_start.
Defined.

(** When every call resolves and the text is usable, the new document is
    in the store, whatever the response then is. *)
Lemma generate_and_save_stores env user body w :
  GEMINI_API_KEY env = true ->
  complete body = true ->
  (forall c, rejects env c = false) ->
  unusable (generated_for env body) = false ->
  newsletters w !! new_ObjectId env = None ->
  newsletters (snd (generate_and_save env user body w)) !! new_ObjectId env
  = Some (new_newsletter env body).
Proof.
  intros Hkey Hbody Hall Husable Hfree.
  unfold generate_and_save. rewrite Hkey, (complete_false _ Hbody). cbn [negb].
  expose_request Husable. run_handler. rewrite !Hall, Husable.
  cbn [newsletters record_call Newsletter._id orb]. rewrite Hfree.
  rewrite bool_decide_eq_false_2 by (intros [? ?]; discriminate).
  case_on_answers;
    cbn [snd newsletters set_newsletters add_notifications record_call];
    apply lookup_insert_eq.
Qed.

(** With a title that makes a valid header value on top of that, the
    response is the PDF. *)
Lemma generate_and_save_creates env user body w :
  GEMINI_API_KEY env = true ->
  complete body = true ->
  (forall c, rejects env c = false) ->
  unusable (generated_for env body) = false ->
  newsletters w !! new_ObjectId env = None ->
  checkInvalidHeaderChar (content_disposition (default "" (body_title body)))
  = false ->
  fst (generate_and_save env user body w)
  = Returned {| statusCode := 200;
                body := send_buffer (Some "application/pdf")
                          (content_disposition (default "" (body_title body)))
                          (pdf_of env (generated_for env body)) |}
  /\ newsletters (snd (generate_and_save env user body w)) !! new_ObjectId env
     = Some (new_newsletter env body).
Proof.
  intros Hkey Hbody Hall Husable Hfree Hname.
  split; [| now apply generate_and_save_stores].
  unfold generate_and_save. rewrite Hkey, (complete_false _ Hbody). cbn [negb].
  expose_request Husable. run_handler. rewrite !Hall, Husable.
  cbn [newsletters record_call Newsletter._id orb]. rewrite Hfree.
  rewrite bool_decide_eq_false_2 by (intros [? ?]; discriminate).
  change (checkInvalidHeaderChar "application/pdf") with false.
  cbv beta iota. rewrite Hname. reflexivity.
Qed.

(** C9 (as the code has it).  A record that a run of the generation
    pipeline added to the store has the status [Not Sent], which is the
    schema's default and the first value of its enumeration, a markup that
    is not empty, and as its artifact the buffer the renderer exported,
    whatever that buffer holds. *)
Theorem created_record_is_not_sent env user body w id n :
  newsletters (snd (generate_and_save env user body w)) !! id = Some n ->
  newsletters w !! id <> Some n ->
  Newsletter.status n = "Not Sent"
  /\ Newsletter.status n = Newsletter.status_default
  /\ head Newsletter.status_enum = Some (Newsletter.status n)
  /\ PdfContent.data (Newsletter.pdfContent n)
     = Some (pdf_of env (generated_for env body))
  /\ (exists html,
        Newsletter.htmlContent n = Some html
        /\ html <> "" /\ (100 <= String.length html)%nat).
Proof.
  intros Hafter Hbefore.
  destruct (generate_and_save_store env user body w)
    as [Hsame | (Husable & _ & _ & Hstore)].
  - rewrite Hsame in Hafter. contradiction.
  - rewrite Hstore in Hafter.
    destruct (decide (new_ObjectId env = id)) as [<- | Hother].
    + rewrite lookup_insert_eq in Hafter. injection Hafter as <-.
      repeat split; try reflexivity.
      destruct (generated_new_newsletter env body Husable)
        as [_ (html & Hhtml & Hlong)].
      exists html. split; [exact Hhtml |]. split; [| exact Hlong].
      intros ->. cbn in Hlong. lia.
    + rewrite lookup_insert_ne in Hafter by exact Hother. contradiction.
Qed.

Lemma created_record_is_not_sent_witness :
  Newsletter.status (new_newsletter Fixture.quiet Sample.body) = "Not Sent"
  /\ Newsletter.status (new_newsletter Fixture.quiet Sample.body)
     = Newsletter.status_default
  /\ head Newsletter.status_enum
     = Some (Newsletter.status (new_newsletter Fixture.quiet Sample.body))
  /\ PdfContent.data
       (Newsletter.pdfContent (new_newsletter Fixture.quiet Sample.body))
     = Some (pdf_of Fixture.quiet (generated_for Fixture.quiet Sample.body))
  /\ (exists html,
        Newsletter.htmlContent (new_newsletter Fixture.quiet Sample.body)
        = Some html
        /\ html <> "" /\ (100 <= String.length html)%nat).
Proof.
  apply (created_record_is_not_sent Fixture.quiet 5 Sample.body empty_world 1).
  - vm_compute. reflexivity.
  - vm_compute. discriminate.
Defined.

(** C9, counterexample.  The spec's example request, with a renderer that
    exports an empty buffer: the request answers 200 and the record that
    is created has an empty artifact; and its status reads [Not Sent],
    which is not the text [not_sent]. *)
Lemma created_record_with_empty_artifact :
  statusCode
  <$> (match fst (generate_and_save (Fixture.exporting [] Fixture.quiet) 5
                    Sample.body empty_world) with
       | Returned res => Some res
       | Thrown _ => None
       end) = Some 200
  /\ (fun n => PdfContent.data (Newsletter.pdfContent n))
     <$> newsletters
           (snd (generate_and_save (Fixture.exporting [] Fixture.quiet) 5
                   Sample.body empty_world)) !! 1
     = Some (Some [])
  /\ (fun n => (Newsletter.status n =? "not_sent")%string)
     <$> newsletters
           (snd (generate_and_save (Fixture.exporting [] Fixture.quiet) 5
                   Sample.body empty_world)) !! 1
     = Some false.
Proof. vm_compute. repeat split. Qed.

(** C3 (as the code has it).  The text of the generation service, with an
    incidental code fence stripped, is refused when it is empty or shorter
    than 100 code units: the request fails with status 500, the journal
    gains the category lookup and the generation call and nothing else (no
    call to the renderer), and nothing is persisted.  The leading document
    marker is not examined. *)
Theorem unusable_text_is_rejected_before_rendering env user body w :
  GEMINI_API_KEY env = true ->
  complete body = true ->
  rejects env (Call.Category_findOne (default "" (body_category body))) = false ->
  rejects env (Call.model_generateContent (prompt_for env body)) = false ->
  generated_for env body = ""
  \/ (String.length (generated_for env body) < 100)%nat ->
  fst (generate_and_save env user body w)
  = Returned (res_json 500
                "Failed to generate and save PDF. Check server logs for details.")
  /\ journal (snd (generate_and_save env user body w))
     = (journal w
        ++ [ (Call.Category_findOne (default "" (body_category body)), true);
             (Call.model_generateContent (prompt_for env body), true) ])%list
  /\ renderer_invoked (journal (snd (generate_and_save env user body w)))
     = renderer_invoked (journal w)
  /\ newsletters (snd (generate_and_save env user body w)) = newsletters w
  /\ notifications (snd (generate_and_save env user body w)) = notifications w.
Proof.
  intros Hkey Hbody Hcat Hgen Hshort.
  apply unusable_spec in Hshort.
  unfold generate_and_save. rewrite Hkey, (complete_false _ Hbody). cbn [negb].
  expose_request Hgen. expose_request Hshort.
  run_handler. rewrite Hcat, Hgen, Hshort.
  cbn [fst snd journal newsletters notifications record_call].
  rewrite <- app_assoc. cbn [app].
  repeat split.
  unfold renderer_invoked. rewrite existsb_app. cbn. apply orb_false_r.
Qed.

Lemma unusable_text_is_rejected_before_rendering_witness :
  let env := Sample.env Sample.today Sample.too_short Sample.all_resolve in
  fst (generate_and_save env 5 Sample.body empty_world)
  = Returned (res_json 500
                "Failed to generate and save PDF. Check server logs for details.")
  /\ journal (snd (generate_and_save env 5 Sample.body empty_world))
     = (journal empty_world
        ++ [ (Call.Category_findOne (default "" (body_category Sample.body)), true);
             (Call.model_generateContent (prompt_for env Sample.body), true) ])%list
  /\ renderer_invoked (journal (snd (generate_and_save env 5 Sample.body empty_world)))
     = renderer_invoked (journal empty_world)
  /\ newsletters (snd (generate_and_save env 5 Sample.body empty_world))
     = newsletters empty_world
  /\ notifications (snd (generate_and_save env 5 Sample.body empty_world))
     = notifications empty_world.
Proof.
  intros env.
  apply (unusable_text_is_rejected_before_rendering env 5 Sample.body empty_world).
  - reflexivity.
  - reflexivity.
  - reflexivity.
  - reflexivity.
  - right. vm_compute. lia.
Defined.

(** C3, counterexample.  A text of 107 code units that does not begin with
    the document marker passes the check: the renderer is called on, the
    request answers 200 and the text is stored as the markup. *)
Lemma marker_is_not_checked :
  String.prefix "<!DOCTYPE html>"
    (generated_for (Sample.env Sample.today Sample.chatty Sample.all_resolve)
       Sample.body) = false
  /\ renderer_invoked
       (journal
          (snd (generate_and_save
                  (Sample.env Sample.today Sample.chatty Sample.all_resolve) 5
                  Sample.body empty_world))) = true
  /\ statusCode
     <$> (match fst (generate_and_save
                       (Sample.env Sample.today Sample.chatty Sample.all_resolve)
                       5 Sample.body empty_world) with
          | Returned res => Some res
          | Thrown _ => None
          end) = Some 200
  /\ Newsletter.htmlContent
     <$> newsletters
           (snd (generate_and_save
                   (Sample.env Sample.today Sample.chatty Sample.all_resolve) 5
                   Sample.body empty_world)) !! 1
     = Some (Some Sample.chatty).
Proof. vm_compute. repeat split. Qed.

(** ** The rendering context *)

(** When the markup fails to load or the export fails, the journal of the
    run holds the launch of the browser and no call of [browser.close]. *)
Lemma browser_not_closed_when_rendering_fails env user body w :
  GEMINI_API_KEY env = true ->
  complete body = true ->
  rejects env (Call.Category_findOne (default "" (body_category body))) = false ->
  rejects env (Call.model_generateContent (prompt_for env body)) = false ->
  unusable (generated_for env body) = false ->
  rejects env Call.puppeteer_launch = false ->
  rejects env Call.browser_newPage = false ->
  rejects env (Call.page_setContent (generated_for env body)) = true
  \/ rejects env Call.page_pdf = true ->
  exists calls,
    journal (snd (generate_and_save env user body w)) = (journal w ++ calls)%list
    /\ In (Call.puppeteer_launch, true) calls
    /\ forall resolved, ~ In (Call.browser_close, resolved) calls.
Proof.
  intros Hkey Hbody Hcat Hgen Husable Hlaunch Hpage Hfail.
  unfold generate_and_save. rewrite Hkey, (complete_false _ Hbody). cbn [negb].
  expose_request Hgen. expose_request Husable. expose_request Hfail.
  run_handler. rewrite Hcat, Hgen, Husable, Hlaunch, Hpage.
  destruct (rejects env (Call.page_setContent _)) eqn:Hload.
  - cbn [snd journal record_call]. rewrite <- !app_assoc. cbn [app].
    eexists. split; [reflexivity |]. split; [cbn; tauto |].
    intros resolved Hin. cbn in Hin.
    repeat destruct Hin as [Hin | Hin]; try discriminate Hin; exact Hin.
  - destruct Hfail as [Hfail | Hfail]; [discriminate Hfail |]. rewrite Hfail.
    cbn [snd journal record_call]. rewrite <- !app_assoc. cbn [app].
    eexists. split; [reflexivity |]. split; [cbn; tauto |].
    intros resolved Hin. cbn in Hin.
    repeat destruct Hin as [Hin | Hin]; try discriminate Hin; exact Hin.
Qed.

(** C4, at the failing runs.  With the markup failing to load, and with
    the export failing, the request answers 500 and one launched browser
    is left open; on the run where every call resolves none is. *)
Theorem browser_left_open_when_rendering_fails :
  let run rejects :=
    generate_and_save (Sample.env Sample.today Sample.fenced rejects) 5
      Sample.body empty_world in
  let failure :=
    Returned (res_json 500
                "Failed to generate and save PDF. Check server logs for details.") in
  (fst (run Sample.load_fails) = failure
   /\ live_browsers (journal (snd (run Sample.load_fails))) = 1%nat)
  /\ (fst (run Sample.export_fails) = failure
      /\ live_browsers (journal (snd (run Sample.export_fails))) = 1%nat)
  /\ live_browsers (journal (snd (run Sample.all_resolve))) = 0%nat.
Proof. vm_compute. repeat split. Qed.

(** ** Prompt composer *)

(** C8 (as the code has it).  The composer is a function of its three
    arguments and of the current date, and of nothing else (it takes no
    store and no answer of the outside): with the same arguments, two
    invocations give the same request, character for character, exactly
    when the date reads the same in the header. *)
Theorem prompt_reproducible_on_same_date now1 now2 articles title flyerImageUrl :
  createAdvancedNewsletterHtmlPrompt now1 articles title flyerImageUrl
  = createAdvancedNewsletterHtmlPrompt now2 articles title flyerImageUrl
  <-> DateFns.format_MMMM_do_yyyy now1 = DateFns.format_MMMM_do_yyyy now2.
Proof.
  unfold createAdvancedNewsletterHtmlPrompt. cbv zeta. split.
  - intros H. repeat apply append_cancel_l in H.
    now apply append_cancel_r in H.
  - intros ->. reflexivity.
Qed.

Lemma prompt_reproducible_on_same_date_witness :
  createAdvancedNewsletterHtmlPrompt Sample.today [Sample.article]
    "Weekly Digest" None
  = createAdvancedNewsletterHtmlPrompt Sample.today [Sample.article]
      "Weekly Digest" None.
Proof.
  apply (proj2 (prompt_reproducible_on_same_date Sample.today Sample.today
                  [Sample.article] "Weekly Digest" None)).
  reflexivity.
Defined.

(** C8, counterexample.  The same article list, title and flyer reference
    give two different requests on two different days. *)
Lemma prompt_changes_with_the_date :
  (createAdvancedNewsletterHtmlPrompt Sample.today [Sample.article]
     "Weekly Digest" None
   =? createAdvancedNewsletterHtmlPrompt Sample.tomorrow [Sample.article]
        "Weekly Digest" None)%string = false.
Proof. vm_compute. reflexivity. Qed.

(** * Further properties of the routes *)

(** Reads the journal entries a run added off the final world. *)
Ltac since :=
  unfold calls_since;
  cbn [fst snd journal newsletters notifications record_call set_newsletters
       add_notifications];
  rewrite <- ?app_assoc;
  first [ rewrite drop_app_length | rewrite drop_all ].

(** ** More of POST /:id/send *)

(** X1.  A send whose recipient list is missing or empty is answered 400
    before anything else happens: no store is read, no call is made, the
    world is as it was. *)
Theorem send_without_recipients_is_refused env id body_userIds w :
  no_recipients body_userIds = true ->
  send env id body_userIds w
  = (Returned (res_json 400 "No recipients selected."), w).
Proof. intros Hnone. unfold send. rewrite Hnone. reflexivity. Qed.

Lemma send_without_recipients_is_refused_witness :
  send Fixture.quiet 1 (Some []) Fixture.shelf
  = (Returned (res_json 400 "No recipients selected."), Fixture.shelf).
Proof.
  apply (send_without_recipients_is_refused Fixture.quiet 1 (Some []) Fixture.shelf).
  reflexivity.
Defined.

(** X2.  A send to an identity that matches no newsletter is answered 404
    after the one lookup: no recipient is resolved, no mail is sent, and
    nothing is written. *)
Theorem send_to_unknown_newsletter env id userIds w :
  userIds <> [] ->
  rejects env (Call.Newsletter_findById id) = false ->
  newsletters w !! id = None ->
  send env id (Some userIds) w
  = (Returned (res_json 404 "Newsletter not found."),
     record_call (Call.Newsletter_findById id) true w).
Proof.
  intros Hne Hfind Hnone. unfold send. rewrite (some_recipients _ Hne).
  run_handler. rewrite Hfind. cbn [newsletters record_call]. now rewrite Hnone.
Qed.

Lemma send_to_unknown_newsletter_witness :
  send Fixture.quiet 3 (Some [10]) Fixture.shelf
  = (Returned (res_json 404 "Newsletter not found."),
     record_call (Call.Newsletter_findById 3) true Fixture.shelf).
Proof.
  apply (send_to_unknown_newsletter Fixture.quiet 3 [10] Fixture.shelf).
  - discriminate.
  - reflexivity.
  - reflexivity.
Defined.

(** X3.  In a process without a mail provider key, a send never resolves
    recipients and never calls the provider, whatever the request and
    whatever the stores answer. *)
Theorem send_without_provider_makes_no_delivery_call env id body_userIds w :
  SENDGRID_API_KEY env = false ->
  existsb (fun e => is_delivery_call (fst e))
    (calls_since w (snd (send env id body_userIds w))) = false.
Proof.
  intros Hkey. unfold send.
  destruct (no_recipients body_userIds); [since; reflexivity |].
  run_handler. rewrite Hkey.
  destruct (rejects env (Call.Newsletter_findById id));
    cbn [newsletters record_call]; [since; reflexivity |].
  destruct (newsletters w !! id) as [doc |]; [| since; reflexivity].
  case_on_answers; since; reflexivity.
Qed.

Lemma send_without_provider_makes_no_delivery_call_witness :
  existsb (fun e => is_delivery_call (fst e))
    (calls_since Fixture.shelf
       (snd (send (Fixture.without_provider Fixture.quiet) 1 (Some [10; 12])
               Fixture.shelf))) = false.
Proof.
  apply (send_without_provider_makes_no_delivery_call
           (Fixture.without_provider Fixture.quiet) 1 (Some [10; 12])
           Fixture.shelf).
  reflexivity.
Defined.

(** X4.  With a provider configured, when none of the given identities
    resolves to a user, the provider is not called at all, yet the send
    succeeds: the newsletter is stored as sent, with the identities merged
    into its recipients. *)
Theorem send_when_nobody_resolves env id userIds w newsletter :
  userIds <> [] ->
  rejects env (Call.Newsletter_findById id) = false ->
  newsletters w !! id = Some newsletter ->
  Newsletter._id newsletter = id ->
  SENDGRID_API_KEY env = true ->
  rejects env (Call.User_find userIds) = false ->
  resolved env userIds = [] ->
  rejects env (Call.Newsletter_save (sent_doc newsletter userIds)) = false ->
  fst (send env id (Some userIds) w)
  = Returned (res_json 200 (sent_message userIds))
  /\ existsb (fun e => is_mail (fst e))
       (calls_since w (snd (send env id (Some userIds) w))) = false
  /\ newsletters (snd (send env id (Some userIds) w)) !! id
     = Some (sent_doc newsletter userIds).
Proof.
  intros Hne Hfind Hlook Hid Hkey Husers Hres Hsave.
  unfold resolved in Hres. unfold sent_doc in *.
  unfold send. rewrite (some_recipients _ Hne). cbn [from_option Datatypes.id].
  run_handler. rewrite Hfind. cbn [newsletters record_call]. rewrite Hlook, Hkey.
  rewrite Husers, Hres. cbn [List.length].
  change (0 <? N.of_nat 0) with false. cbv beta iota.
  cbn [Newsletter.recipients Newsletter.set_status]. rewrite Hsave.
  rewrite length_map, (nonempty_length _ Hne).
  match goal with
  | |- context [rejects ?e (Call.Notification_insertMany ?docs)] =>
      destruct (rejects e (Call.Notification_insertMany docs));
      [| destruct (forallb (fun d => negb (write_error e d)) docs)]
  end.
  all: split; [reflexivity |]; split; [since; reflexivity |].
  all: cbn [snd newsletters record_call set_newsletters add_notifications].
  all: change (Newsletter._id (Newsletter.set_recipients _ _))
         with (Newsletter._id newsletter).
  all: rewrite Hid; apply lookup_insert_eq.
Qed.

Lemma send_when_nobody_resolves_witness :
  fst (send Fixture.quiet 2 (Some [40; 41]) Fixture.shelf)
  = Returned (res_json 200 (sent_message [40; 41]))
  /\ existsb (fun e => is_mail (fst e))
       (calls_since Fixture.shelf
          (snd (send Fixture.quiet 2 (Some [40; 41]) Fixture.shelf))) = false
  /\ newsletters (snd (send Fixture.quiet 2 (Some [40; 41]) Fixture.shelf)) !! 2
     = Some (sent_doc Fixture.match_day [40; 41]).
Proof.
  apply (send_when_nobody_resolves Fixture.quiet 2 [40; 41] Fixture.shelf
           Fixture.match_day).
  - discriminate.
  - reflexivity.
  - reflexivity.
  - reflexivity.
  - reflexivity.
  - reflexivity.
  - reflexivity.
  - reflexivity.
Defined.

(** X5.  A send that gets as far as the notifications writes, of its
    batch (one notification per listed identity, in order, a repeated
    identity repeated), exactly the documents the store does not refuse,
    and none when the batch call itself rejects; the earlier notifications
    stay. *)
Theorem send_writes_the_accepted_notifications env id userIds w newsletter :
  userIds <> [] ->
  rejects env (Call.Newsletter_findById id) = false ->
  newsletters w !! id = Some newsletter ->
  delivery_passes env newsletter userIds = true ->
  rejects env (Call.Newsletter_save (sent_doc newsletter userIds)) = false ->
  notifications (snd (send env id (Some userIds) w))
  = (notifications w
     ++ if rejects env (Call.Notification_insertMany (batch_for newsletter userIds))
        then []
        else accepted env (batch_for newsletter userIds))%list
  /\ map Notification.user (batch_for newsletter userIds) = userIds.
Proof.
  intros Hne Hfind Hlook Hpass Hsave.
  split; [| unfold batch_for; rewrite map_map; apply map_id].
  unfold delivery_passes, resolved in Hpass.
  unfold accepted, batch_for, sent_doc in *.
  unfold send. rewrite (some_recipients _ Hne). cbn [from_option Datatypes.id].
  run_handler. rewrite Hfind. cbn [newsletters record_call]. rewrite Hlook.
  cbn [Newsletter.recipients Newsletter.set_status]. rewrite Hsave.
  rewrite length_map, (nonempty_length _ Hne).
  assert (Hnil : forall l : list Notification.t, l = (l ++ [])%list)
    by (intros l; now rewrite app_nil_r).
  destruct (SENDGRID_API_KEY env).
  - destruct (rejects env (Call.User_find userIds)); [discriminate Hpass |].
    cbn [negb andb] in Hpass.
    destruct (0 <? N.of_nat (List.length _)).
    + apply negb_true_iff in Hpass. rewrite Hpass.
      destruct (rejects env (Call.Notification_insertMany _));
        [apply Hnil | destruct (forallb _ _); reflexivity].
    + destruct (rejects env (Call.Notification_insertMany _));
        [apply Hnil | destruct (forallb _ _); reflexivity].
  - destruct (rejects env (Call.Notification_insertMany _));
      [apply Hnil | destruct (forallb _ _); reflexivity].
Qed.

Lemma send_writes_the_accepted_notifications_witness :
  let env := Fixture.refusing (Fixture.for_user 12) Fixture.quiet in
  notifications (snd (send env 1 (Some [11; 12; 12]) Fixture.shelf))
  = (notifications Fixture.shelf
     ++ if rejects env
             (Call.Notification_insertMany
                (batch_for (Sample.newsletter "approved") [11; 12; 12]))
        then []
        else accepted env (batch_for (Sample.newsletter "approved") [11; 12; 12]))%list
  /\ map Notification.user (batch_for (Sample.newsletter "approved") [11; 12; 12])
     = [11; 12; 12].
Proof.
  intros env.
  apply (send_writes_the_accepted_notifications env 1 [11; 12; 12] Fixture.shelf
           (Sample.newsletter "approved")).
  - discriminate.
  - reflexivity.
  - reflexivity.
  - vm_compute. reflexivity.
  - reflexivity.
Defined.

Lemma addToSet_absorbed array values :
  (forall x, x ∈ values -> x ∈ array) -> addToSet array values = array.
Proof.
  induction values as [| v values IH]; intros Hin; [reflexivity |].
  rewrite addToSet_cons.
  destruct (decide (v ∈ array)) as [_ | Hout].
  - apply IH. intros x Hx. apply Hin. now right.
  - destruct Hout. apply Hin. now left.
Qed.

Lemma sent_doc_again newsletter userIds :
  sent_doc (sent_doc newsletter userIds) userIds = sent_doc newsletter userIds.
Proof.
  unfold sent_doc, Newsletter.set_recipients, Newsletter.set_status.
  cbn [Newsletter.recipients Newsletter._id Newsletter.title
       Newsletter.category Newsletter.status Newsletter.articles
       Newsletter.pdfContent Newsletter.htmlContent].
  f_equal. apply addToSet_absorbed.
  intros x Hx. apply elem_of_addToSet. now right.
Qed.

(** X6.  Sending again to the same list changes nothing in the store: the
    record after the second send is the record after the first, recipients
    included. *)
Theorem send_again_changes_nothing env1 env2 id userIds w newsletter :
  userIds <> [] ->
  newsletters w !! id = Some newsletter ->
  Newsletter._id newsletter = id ->
  rejects env1 (Call.Newsletter_findById id) = false ->
  delivery_passes env1 newsletter userIds = true ->
  rejects env1 (Call.Newsletter_save (sent_doc newsletter userIds)) = false ->
  rejects env2 (Call.Newsletter_findById id) = false ->
  delivery_passes env2 (sent_doc newsletter userIds) userIds = true ->
  rejects env2 (Call.Newsletter_save (sent_doc newsletter userIds)) = false ->
  let w1 := snd (send env1 id (Some userIds) w) in
  let w2 := snd (send env2 id (Some userIds) w1) in
  newsletters w2 = newsletters w1
  /\ newsletters w2 !! id = Some (sent_doc newsletter userIds).
Proof.
  intros Hne Hlook Hid Hfind1 Hpass1 Hsave1 Hfind2 Hpass2 Hsave2 w1 w2.
  destruct (send_completes env1 id userIds w newsletter)
    as (_ & Hstore1 & _); try assumption.
  fold w1 in Hstore1. rewrite Hid in Hstore1.
  assert (Hlook1 : newsletters w1 !! id = Some (sent_doc newsletter userIds))
    by (rewrite Hstore1; apply lookup_insert_eq).
  destruct (send_completes env2 id userIds w1 (sent_doc newsletter userIds))
    as (_ & Hstore2 & _); try assumption.
  { now rewrite sent_doc_again. }
  fold w2 in Hstore2. rewrite sent_doc_again in Hstore2.
  change (Newsletter._id (sent_doc newsletter userIds))
    with (Newsletter._id newsletter) in Hstore2.
  rewrite Hid in Hstore2.
  split; [| rewrite Hstore2; apply lookup_insert_eq].
  rewrite Hstore2. apply insert_id. exact Hlook1.
Qed.

Lemma send_again_changes_nothing_witness :
  let w1 := snd (send Fixture.quiet 1 (Some [11; 12]) Fixture.shelf) in
  let w2 := snd (send Fixture.quiet 1 (Some [11; 12]) w1) in
  newsletters w2 = newsletters w1
  /\ newsletters w2 !! 1
     = Some (sent_doc (Sample.newsletter "approved") [11; 12]).
Proof.
  apply (send_again_changes_nothing Fixture.quiet Fixture.quiet 1 [11; 12]
           Fixture.shelf (Sample.newsletter "approved")).
  - discriminate.
  - reflexivity.
  - reflexivity.
  - reflexivity.
  - vm_compute. reflexivity.
  - reflexivity.
  - reflexivity.
  - vm_compute. reflexivity.
  - reflexivity.
Defined.

(** X7.  In every world the router can reach, the recipients of a stored
    newsletter hold no identity twice. *)
Theorem reachable_recipients_distinct w :
  reachable w ->
  map_Forall (fun _ n => NoDup (Newsletter.recipients n)) (newsletters w).
Proof.
  induction 1 as [| env r w _ IH]; [apply map_Forall_empty |].
  apply handle_preserves; [| | | exact IH].
  - intros body _. apply NoDup_nil_2.
  - intros k s n Hn. exact Hn.
  - intros k n userIds Hn. now apply NoDup_addToSet.
Qed.

Lemma reachable_recipients_distinct_witness :
  map_Forall (fun _ n => NoDup (Newsletter.recipients n))
    (newsletters
       (snd (handle Fixture.quiet (POST_send 1 (Some [12; 12; 10]))
               (snd (handle Fixture.quiet
                       (POST_generate_and_save 5 Sample.body) empty_world))))).
Proof.
  apply reachable_recipients_distinct.
  apply reachable_step, reachable_step, reachable_start.
Defined.

(** ** DELETE /:id and GET /:id/download *)

(** X8.  Deleting a stored newsletter answers 200 and removes that record
    and no other; the notifications that mention it stay. *)
Theorem delete_removes_the_record env id w doc :
  rejects env (Call.Newsletter_findByIdAndDelete id) = false ->
  newsletters w !! id = Some doc ->
  fst (delete_newsletter env id w)
  = Returned (res_json 200 "Newsletter deleted successfully.")
  /\ newsletters (snd (delete_newsletter env id w)) !! id = None
  /\ (forall other, other <> id ->
        newsletters (snd (delete_newsletter env id w)) !! other
        = newsletters w !! other)
  /\ notifications (snd (delete_newsletter env id w)) = notifications w.
Proof.
  intros Hcall Hlook. unfold delete_newsletter. run_handler.
  rewrite Hcall. cbn [newsletters record_call]. rewrite Hlook.
  cbn [fst snd newsletters notifications set_newsletters record_call].
  split; [reflexivity |]. split; [apply lookup_delete_eq |].
  split; [| reflexivity].
  intros other Hother. now apply lookup_delete_ne.
Qed.

Lemma delete_removes_the_record_witness :
  fst (delete_newsletter Fixture.quiet 1 Fixture.shelf)
  = Returned (res_json 200 "Newsletter deleted successfully.")
  /\ newsletters (snd (delete_newsletter Fixture.quiet 1 Fixture.shelf)) !! 1 = None
  /\ (forall other, other <> 1 ->
        newsletters (snd (delete_newsletter Fixture.quiet 1 Fixture.shelf)) !! other
        = newsletters Fixture.shelf !! other)
  /\ notifications (snd (delete_newsletter Fixture.quiet 1 Fixture.shelf))
     = notifications Fixture.shelf.
Proof.
  apply (delete_removes_the_record Fixture.quiet 1 Fixture.shelf
           (Sample.newsletter "approved")).
  - reflexivity.
  - reflexivity.
Defined.

(** X9.  Deleting an identity that matches no newsletter answers 404 and
    leaves the store as it was. *)
Theorem delete_unknown_newsletter env id w :
  rejects env (Call.Newsletter_findByIdAndDelete id) = false ->
  newsletters w !! id = None ->
  fst (delete_newsletter env id w)
  = Returned (res_json 404 "Newsletter not found.")
  /\ newsletters (snd (delete_newsletter env id w)) = newsletters w.
Proof.
  intros Hcall Hnone. unfold delete_newsletter. run_handler.
  rewrite Hcall. cbn [newsletters record_call]. rewrite Hnone.
  cbn [fst snd newsletters set_newsletters record_call].
  split; [reflexivity | now apply delete_id].
Qed.

Lemma delete_unknown_newsletter_witness :
  fst (delete_newsletter Fixture.quiet 3 Fixture.shelf)
  = Returned (res_json 404 "Newsletter not found.")
  /\ newsletters (snd (delete_newsletter Fixture.quiet 3 Fixture.shelf))
     = newsletters Fixture.shelf.
Proof.
  apply (delete_unknown_newsletter Fixture.quiet 3 Fixture.shelf).
  - reflexivity.
  - reflexivity.
Defined.

(** X10.  Once a newsletter is deleted it can be neither downloaded nor
    sent: both requests answer 404, and the send reaches no recipient. *)
Theorem deleted_newsletter_is_gone env env' id userIds w doc :
  rejects env (Call.Newsletter_findByIdAndDelete id) = false ->
  newsletters w !! id = Some doc ->
  rejects env' (Call.Newsletter_findById id) = false ->
  userIds <> [] ->
  let w' := snd (delete_newsletter env id w) in
  fst (download env' id w')
  = Returned {| statusCode := 404; body := send_text "PDF not found." |}
  /\ send env' id (Some userIds) w'
     = (Returned (res_json 404 "Newsletter not found."),
        record_call (Call.Newsletter_findById id) true w').
Proof.
  intros Hcall Hlook Hread Hne w'.
  assert (Hgone : newsletters w' !! id = None).
  { subst w'. unfold delete_newsletter. run_handler.
    rewrite Hcall. cbn [newsletters record_call]. rewrite Hlook.
    cbn [snd newsletters set_newsletters record_call]. apply lookup_delete_eq. }
  split.
  - unfold download. run_handler. rewrite Hread.
    cbn [newsletters record_call]. now rewrite Hgone.
  - unfold send. rewrite (some_recipients _ Hne). run_handler. rewrite Hread.
    cbn [newsletters record_call]. now rewrite Hgone.
Qed.

Lemma deleted_newsletter_is_gone_witness :
  let w' := snd (delete_newsletter Fixture.quiet 1 Fixture.shelf) in
  fst (download Fixture.quiet 1 w')
  = Returned {| statusCode := 404; body := send_text "PDF not found." |}
  /\ send Fixture.quiet 1 (Some [10]) w'
     = (Returned (res_json 404 "Newsletter not found."),
        record_call (Call.Newsletter_findById 1) true w').
Proof.
  apply (deleted_newsletter_is_gone Fixture.quiet Fixture.quiet 1 [10]
           Fixture.shelf (Sample.newsletter "approved")).
  - reflexivity.
  - reflexivity.
  - reflexivity.
  - discriminate.
Defined.

(** X11.  After a generation in which every call resolved, for a title
    whose file name makes a valid header value, downloading the new
    newsletter answers with what the generation answered: 200, the same
    bytes, the same content type and the same file name. *)
Theorem download_returns_the_generated_pdf env env' user body w :
  GEMINI_API_KEY env = true ->
  complete body = true ->
  (forall c, rejects env c = false) ->
  unusable (generated_for env body) = false ->
  newsletters w !! new_ObjectId env = None ->
  checkInvalidHeaderChar (content_disposition (default "" (body_title body)))
  = false ->
  rejects env' (Call.Newsletter_findById (new_ObjectId env)) = false ->
  fst (generate_and_save env user body w)
  = Returned {| statusCode := 200;
                body := send_buffer (Some "application/pdf")
                          (content_disposition (default "" (body_title body)))
                          (pdf_of env (generated_for env body)) |}
  /\ fst (download env' (new_ObjectId env)
            (snd (generate_and_save env user body w)))
     = fst (generate_and_save env user body w).
Proof.
  intros Hkey Hbody Hall Husable Hfree Hname Hread.
  destruct (generate_and_save_creates env user body w) as [Hres Hstored];
    try assumption.
  split; [exact Hres |].
  rewrite Hres. unfold download. run_handler. rewrite Hread.
  cbn [fst newsletters record_call]. rewrite Hstored.
  cbn [new_newsletter Newsletter.pdfContent Newsletter.title PdfContent.data
       PdfContent.contentType].
  change (checkInvalidHeaderChar "application/pdf") with false.
  cbv beta iota. rewrite Hname. reflexivity.
Qed.

Lemma download_returns_the_generated_pdf_witness :
  fst (generate_and_save (Fixture.making 3 Fixture.quiet) 5 Sample.body
         Fixture.shelf)
  = Returned {| statusCode := 200;
                body := send_buffer (Some "application/pdf")
                          (content_disposition
                             (default "" (body_title Sample.body)))
                          (pdf_of (Fixture.making 3 Fixture.quiet)
                             (generated_for (Fixture.making 3 Fixture.quiet)
                                Sample.body)) |}
  /\ fst (download Fixture.quiet (new_ObjectId (Fixture.making 3 Fixture.quiet))
            (snd (generate_and_save (Fixture.making 3 Fixture.quiet) 5
                    Sample.body Fixture.shelf)))
     = fst (generate_and_save (Fixture.making 3 Fixture.quiet) 5 Sample.body
              Fixture.shelf).
Proof.
  apply (download_returns_the_generated_pdf (Fixture.making 3 Fixture.quiet)
           Fixture.quiet 5 Sample.body Fixture.shelf).
  - reflexivity.
  - reflexivity.
  - reflexivity.
  - vm_compute. reflexivity.
  - reflexivity.
  - vm_compute. reflexivity.
  - reflexivity.
Defined.

Lemma reachable_content_type w :
  reachable w ->
  map_Forall
    (fun _ n =>
       PdfContent.contentType (Newsletter.pdfContent n) = Some "application/pdf")
    (newsletters w).
Proof.
  induction 1 as [| env r w _ IH]; [apply map_Forall_empty |].
  apply handle_preserves; auto.
Qed.

(** X12.  In every world the router can reach, downloading a stored
    newsletter never answers 404: it answers 200 with the stored artifact
    as [application/pdf] when the file name made of the title is a valid
    header value, and 500 when it is not. *)
Theorem stored_newsletters_are_downloadable env id w n :
  reachable w ->
  newsletters w !! id = Some n ->
  rejects env (Call.Newsletter_findById id) = false ->
  exists data,
    PdfContent.data (Newsletter.pdfContent n) = Some data
    /\ fst (download env id w)
       = Returned
           (if checkInvalidHeaderChar (content_disposition (Newsletter.title n))
            then {| statusCode := 500;
                    body := send_text "Server error while retrieving PDF." |}
            else {| statusCode := 200;
                    body := send_buffer (Some "application/pdf")
                              (content_disposition (Newsletter.title n))
                              data |}).
Proof.
  intros Hreach Hlook Hread.
  destruct (reachable_generated w Hreach id n Hlook) as [[data Hdata] _].
  pose proof (reachable_content_type w Hreach id n Hlook) as Htype.
  cbv beta in Htype.
  exists data. split; [exact Hdata |].
  unfold download. run_handler. rewrite Hread.
  cbn [fst newsletters record_call]. rewrite Hlook, Hdata, Htype.
  change (checkInvalidHeaderChar "application/pdf") with false.
  cbv beta iota.
  now destruct (checkInvalidHeaderChar (content_disposition (Newsletter.title n))).
Qed.

Lemma stored_newsletters_are_downloadable_witness :
  exists data,
    PdfContent.data
      (Newsletter.pdfContent (new_newsletter Fixture.quiet Sample.body))
    = Some data
    /\ fst (download Fixture.quiet 1
              (snd (handle Fixture.quiet (POST_generate_and_save 5 Sample.body)
                      empty_world)))
       = Returned
           (if checkInvalidHeaderChar
                 (content_disposition
                    (Newsletter.title (new_newsletter Fixture.quiet Sample.body)))
            then {| statusCode := 500;
                    body := send_text "Server error while retrieving PDF." |}
            else {| statusCode := 200;
                    body := send_buffer (Some "application/pdf")
                              (content_disposition
                                 (Newsletter.title
                                    (new_newsletter Fixture.quiet Sample.body)))
                              data |}).
Proof.
  apply (stored_newsletters_are_downloadable Fixture.quiet 1
           (snd (handle Fixture.quiet (POST_generate_and_save 5 Sample.body)
                   empty_world))
           (new_newsletter Fixture.quiet Sample.body)).
  - apply reachable_step, reachable_start.
  - vm_compute. reflexivity.
  - reflexivity.
Defined.

(** ** More of POST /generate-and-save *)

(** X13.  A generation request is turned away before any call leaves the
    process: with 500 when no generation client is configured, whatever
    the body, and otherwise with 400 when the title, the category or the
    article list is missing or empty.  The world is as it was. *)
Theorem generate_and_save_turns_away env user body w :
  (GEMINI_API_KEY env = false ->
   generate_and_save env user body w
   = (Returned (res_json 500 "Gemini API client is not initialized."), w))
  /\ (GEMINI_API_KEY env = true ->
      complete body = false ->
      generate_and_save env user body w
      = (Returned (res_json 400 "Title, category, and articles are required."),
         w)).
Proof.
  unfold generate_and_save, complete. split.
  - intros ->. reflexivity.
  - intros -> Hbody. apply negb_false_iff in Hbody. cbn [negb].
    unfold try_catch. now rewrite Hbody.
Qed.

Lemma generate_and_save_turns_away_witness :
  generate_and_save (Fixture.without_generator Fixture.quiet) 5 Sample.body
    Fixture.shelf
  = (Returned (res_json 500 "Gemini API client is not initialized."),
     Fixture.shelf)
  /\ generate_and_save Fixture.quiet 5
       {| body_articles := Some [Sample.article];
          body_title := Some "";
          body_category := Some "Tech" |} Fixture.shelf
     = (Returned (res_json 400 "Title, category, and articles are required."),
        Fixture.shelf).
Proof.
  split.
  - apply (proj1 (generate_and_save_turns_away
                    (Fixture.without_generator Fixture.quiet) 5 Sample.body
                    Fixture.shelf)).
    reflexivity.
  - apply (proj2 (generate_and_save_turns_away Fixture.quiet 5
                    {| body_articles := Some [Sample.article];
                       body_title := Some "";
                       body_category := Some "Tech" |} Fixture.shelf));
      reflexivity.
Defined.

(** X14.  When everything up to the save of the newsletter resolves and
    the notification of the generation cannot be saved, the request
    answers 500 although the newsletter is in the store: the save is not
    taken back. *)
Theorem generate_and_save_keeps_newsletter_without_notification
    env user body w :
  GEMINI_API_KEY env = true ->
  complete body = true ->
  (forall c, rejects env c = is_notification_save c) ->
  unusable (generated_for env body) = false ->
  newsletters w !! new_ObjectId env = None ->
  fst (generate_and_save env user body w)
  = Returned (res_json 500
                "Failed to generate and save PDF. Check server logs for details.")
  /\ newsletters (snd (generate_and_save env user body w)) !! new_ObjectId env
     = Some (new_newsletter env body)
  /\ notifications (snd (generate_and_save env user body w)) = notifications w.
Proof.
  intros Hkey Hbody Hall Husable Hfree.
  unfold generate_and_save. rewrite Hkey, (complete_false _ Hbody). cbn [negb].
  expose_request Husable. run_handler.
  repeat (rewrite Hall; cbn [is_notification_save]; rewrite ?Husable).
  cbn [newsletters record_call Newsletter._id orb]. rewrite Hfree.
  rewrite bool_decide_eq_false_2 by (intros [? ?]; discriminate).
  cbn [fst snd newsletters notifications set_newsletters add_notifications
       record_call].
  split; [reflexivity |]. split; [apply lookup_insert_eq | reflexivity].
Qed.

Lemma generate_and_save_keeps_newsletter_without_notification_witness :
  let env :=
    Fixture.making 3
      (Sample.env Sample.today Sample.fenced Fixture.notification_save_fails) in
  fst (generate_and_save env 5 Sample.body Fixture.shelf)
  = Returned (res_json 500
                "Failed to generate and save PDF. Check server logs for details.")
  /\ newsletters (snd (generate_and_save env 5 Sample.body Fixture.shelf))
       !! new_ObjectId env
     = Some (new_newsletter env Sample.body)
  /\ notifications (snd (generate_and_save env 5 Sample.body Fixture.shelf))
     = notifications Fixture.shelf.
Proof.
  intros env.
  apply (generate_and_save_keeps_newsletter_without_notification env 5
           Sample.body Fixture.shelf).
  - reflexivity.
  - reflexivity.
  - intros c. reflexivity.
  - vm_compute. reflexivity.
  - reflexivity.
Defined.

(** X15.  A generation request, however it ends, leaves every stored
    newsletter as it was (it never overwrites one, not even when the new
    identity collides) and adds at most one. *)
Theorem generate_and_save_leaves_the_others env user body w :
  (forall id n,
     newsletters w !! id = Some n ->
     newsletters (snd (generate_and_save env user body w)) !! id = Some n)
  /\ (size (newsletters (snd (generate_and_save env user body w)))
      <= S (size (newsletters w)))%nat.
Proof.
  destruct (generate_and_save_store env user body w)
    as [Hsame | (_ & _ & Hfree & Hstore)].
  - rewrite Hsame. split; [auto | lia].
  - rewrite Hstore. split.
    + intros id n Hlook. rewrite lookup_insert_ne; [exact Hlook |].
      intros <-. congruence.
    + rewrite map_size_insert_None by exact Hfree. lia.
Qed.

(** ** More of PATCH /:id/status *)

(** X16.  A status update on a stored newsletter writes the given status,
    whatever string it is (nothing checks it against the schema's
    enumeration), and answers 200 with the updated record; the record
    keeps its identity, title, category, articles, recipients, artifact
    and markup, and every other record is as it was.  (The [updatedAt]
    that Mongoose maintains is not a field of the model.) *)
Theorem patch_status_changes_only_the_status env id status w doc :
  rejects env (Call.Newsletter_findByIdAndUpdate id status) = false ->
  newsletters w !! id = Some doc ->
  exists after,
    fst (patch_status env id status w)
    = Returned {| statusCode := 200; body := json_doc (Some after) |}
    /\ newsletters (snd (patch_status env id status w)) !! id = Some after
    /\ Newsletter.status after = status
    /\ (Newsletter._id after, Newsletter.title after, Newsletter.category after,
        Newsletter.articles after, Newsletter.recipients after,
        Newsletter.pdfContent after, Newsletter.htmlContent after)
       = (Newsletter._id doc, Newsletter.title doc, Newsletter.category doc,
          Newsletter.articles doc, Newsletter.recipients doc,
          Newsletter.pdfContent doc, Newsletter.htmlContent doc)
    /\ (forall other, other <> id ->
          newsletters (snd (patch_status env id status w)) !! other
          = newsletters w !! other).
Proof.
  intros Hcall Hlook. exists (Newsletter.set_status status doc).
  rewrite (patch_status_found _ _ _ _ _ Hcall Hlook).
  cbn [fst snd newsletters set_newsletters record_call].
  split; [reflexivity |]. split; [apply lookup_insert_eq |].
  split; [reflexivity |]. split; [reflexivity |].
  intros other Hother. now apply lookup_insert_ne.
Qed.

Lemma patch_status_changes_only_the_status_witness :
  exists after,
    fst (patch_status Fixture.quiet 1 "on hold" Fixture.shelf)
    = Returned {| statusCode := 200; body := json_doc (Some after) |}
    /\ newsletters (snd (patch_status Fixture.quiet 1 "on hold" Fixture.shelf)) !! 1
       = Some after
    /\ Newsletter.status after = "on hold"
    /\ (Newsletter._id after, Newsletter.title after, Newsletter.category after,
        Newsletter.articles after, Newsletter.recipients after,
        Newsletter.pdfContent after, Newsletter.htmlContent after)
       = (Newsletter._id (Sample.newsletter "approved"),
          Newsletter.title (Sample.newsletter "approved"),
          Newsletter.category (Sample.newsletter "approved"),
          Newsletter.articles (Sample.newsletter "approved"),
          Newsletter.recipients (Sample.newsletter "approved"),
          Newsletter.pdfContent (Sample.newsletter "approved"),
          Newsletter.htmlContent (Sample.newsletter "approved"))
    /\ (forall other, other <> 1 ->
          newsletters (snd (patch_status Fixture.quiet 1 "on hold" Fixture.shelf))
            !! other
          = newsletters Fixture.shelf !! other).
Proof.
  apply (patch_status_changes_only_the_status Fixture.quiet 1 "on hold"
           Fixture.shelf (Sample.newsletter "approved")).
  - reflexivity.
  - reflexivity.
Defined.

(** X17.  Of two status updates on the same identity the last one wins:
    when it resolves, the store is what that update alone would have
    left, whether the first one resolved or not. *)
Theorem patch_status_last_write_wins env1 env2 id status1 status2 w :
  rejects env2 (Call.Newsletter_findByIdAndUpdate id status2) = false ->
  newsletters
    (snd (patch_status env2 id status2 (snd (patch_status env1 id status1 w))))
  = newsletters (snd (patch_status env2 id status2 w)).
Proof.
  intros Hcall. rewrite !patch_status_store, Hcall.
  destruct (newsletters w !! id) as [doc |] eqn:Hlook.
  - destruct (rejects env1 _).
    + now rewrite Hlook.
    + rewrite lookup_insert_eq. now rewrite insert_insert_eq.
  - now rewrite Hlook.
Qed.

Lemma patch_status_last_write_wins_witness :
  newsletters
    (snd (patch_status Fixture.quiet 1 "sent"
            (snd (patch_status Fixture.quiet 1 "declined" Fixture.shelf))))
  = newsletters (snd (patch_status Fixture.quiet 1 "sent" Fixture.shelf)).
Proof.
  apply (patch_status_last_write_wins Fixture.quiet Fixture.quiet 1 "declined"
           "sent" Fixture.shelf).
  reflexivity.
Defined.

(** ** The download file name *)

(** X18.  The file name of the [Content-Disposition] header has the length
    of the title and no white space in it: every white-space character of
    the title has become an underscore. *)
Theorem replace_spaces_leaves_no_space title :
  String.length (Js.replace_spaces title) = String.length title
  /\ forall c, In c (list_ascii_of_string (Js.replace_spaces title)) ->
               Js.is_space c = false.
Proof.
  induction title as [| a title [IHlen IHin]]; [split; [reflexivity | intros c []] |].
  cbn [Js.replace_spaces String.length list_ascii_of_string]. split.
  - now rewrite IHlen.
  - intros c [<- | Hin]; [| now apply IHin].
    destruct (Js.is_space a) eqn:Hspace; [reflexivity | exact Hspace].
Qed.

(** ** GET / *)

(** X19.  For a caller with categories, when both queries resolve, the
    listing answers with exactly the stored newsletters whose category is
    one of the caller's: none of another category, and none left out. *)
Theorem listing_shows_the_callers_categories a user w admin categories :
  Listing.refuses a (Listing.User_findById user) = false ->
  Listing.account_of a user = Some admin ->
  Account.categories admin = Some categories ->
  categories <> [] ->
  Listing.refuses a (Listing.Newsletter_find categories) = false ->
  exists docs,
    fst (Listing.get_newsletters a user w) = Listing.json_array docs
    /\ forall n,
         n ∈ docs
         <-> Newsletter.category n ∈ categories
             /\ exists id, newsletters w !! id = Some n.
Proof.
  intros Huser Hadmin Hcats Hne Hfind.
  exists (Listing.matching categories (newsletters w)). split.
  - unfold Listing.get_newsletters. rewrite Huser, Hadmin, Hcats.
    destruct categories; [congruence |]. now rewrite Hfind.
  - intros n. unfold Listing.matching.
    rewrite list_elem_of_In, filter_In, <- list_elem_of_In.
    rewrite bool_decide_eq_true, list_elem_of_fmap.
    split.
    + intros [([id n'] & -> & Hin) Hcat]. split; [exact Hcat |].
      exists id. now apply elem_of_map_to_list.
    + intros [Hcat (id & Hlook)]. split; [| exact Hcat].
      exists (id, n). split; [reflexivity |]. now apply elem_of_map_to_list.
Qed.

Lemma listing_shows_the_callers_categories_witness :
  exists docs,
    fst (Listing.get_newsletters Fixture.listing 5 Fixture.shelf)
    = Listing.json_array docs
    /\ forall n,
         n ∈ docs
         <-> Newsletter.category n ∈ ["Tech"]
             /\ exists id, newsletters Fixture.shelf !! id = Some n.
Proof.
  apply (listing_shows_the_callers_categories Fixture.listing 5 Fixture.shelf
           {| Account._id := 5; Account.categories := Some ["Tech"] |} ["Tech"]).
  - reflexivity.
  - reflexivity.
  - reflexivity.
  - discriminate.
  - reflexivity.
Defined.

(** X20.  For a caller whose account is missing, or has no category list,
    or an empty one, the listing answers with the empty array after the
    one account lookup: the newsletters are not queried. *)
Theorem listing_without_categories a user w :
  Listing.refuses a (Listing.User_findById user) = false ->
  default [] (Listing.account_of a user ≫= Account.categories) = [] ->
  Listing.get_newsletters a user w
  = (Listing.json_array [], [(Listing.User_findById user, true)]).
Proof.
  intros Huser Hnone. unfold Listing.get_newsletters. rewrite Huser.
  destruct (Listing.account_of a user) as [admin |]; [| reflexivity].
  cbn in Hnone. destruct (Account.categories admin) as [[| c cs] |];
    [reflexivity | discriminate Hnone | reflexivity].
Qed.

Lemma listing_without_categories_witness :
  Listing.get_newsletters Fixture.listing 8 Fixture.shelf
  = (Listing.json_array [], [(Listing.User_findById 8, true)]).
Proof.
  apply (listing_without_categories Fixture.listing 8 Fixture.shelf).
  - reflexivity.
  - reflexivity.
Defined.

(** ** GET /api/news and POST /api/news/summarize *)

(** X21.  For a caller whose account is missing, or has no category list,
    or an empty one, the news route answers with no article after the one
    account lookup: neither the categories nor NewsAPI are asked. *)
Theorem news_without_categories {Item} (a : News.Answers Item) user :
  News.outcome a (News.User_findById user) = None ->
  default []
    (List.find (fun u => Account._id u =? user) (News.User_accounts a)
     ≫= Account.categories) = [] ->
  News.get_news a user = (News.json_articles [], [News.User_findById user]).
Proof.
  intros Huser Hnone. unfold News.get_news. rewrite Huser.
  destruct (List.find _ _) as [admin |]; [| reflexivity].
  cbn in Hnone. destruct (Account.categories admin) as [[| c cs] |];
    [reflexivity | discriminate Hnone | reflexivity].
Qed.

Lemma news_without_categories_witness :
  News.get_news (Fixture.news Fixture.all_fine) 6
  = (News.json_articles [], [News.User_findById 6]).
Proof.
  apply (news_without_categories (Fixture.news Fixture.all_fine) 6).
  - reflexivity.
  - reflexivity.
Defined.

(** X22.  Every category contributes at least one search term, so the
    query has at least as many terms as there are categories; a category
    without keywords contributes its name in double quotes. *)
Theorem every_category_is_searched categories :
  (List.length categories <= List.length (News.allKeywords categories))%nat
  /\ forall cat,
       cat ∈ categories ->
       default [] (Topic.keywords cat) = [] ->
       (Js.dq +:+ Topic.name cat +:+ Js.dq) ∈ News.allKeywords categories.
Proof.
  unfold News.allKeywords. split.
  - induction categories as [| cat categories IH]; [reflexivity |].
    cbn [flat_map List.length]. rewrite length_app.
    assert (1 <= List.length (News.terms_of cat))%nat.
    { unfold News.terms_of. destruct (Topic.keywords cat) as [[| k ks] |]; cbn; lia. }
    lia.
  - intros cat Hin Hnone. apply list_elem_of_In, in_flat_map.
    exists cat. split; [now apply list_elem_of_In |].
    unfold News.terms_of.
    destruct (Topic.keywords cat) as [[| k ks] |]; [now left | discriminate Hnone | now left].
Qed.

(** X23.  When the caller has categories but no category document of
    those names exists, NewsAPI is still asked, with the empty query, and
    its articles are passed on. *)
Theorem news_query_is_empty_when_no_category_is_found {Item}
    (a : News.Answers Item) user admin names :
  (forall r, News.outcome a r = None) ->
  List.find (fun u => Account._id u =? user) (News.User_accounts a) = Some admin ->
  Account.categories admin = Some names ->
  names <> [] ->
  News.topics_named a names = [] ->
  News.get_news a user
  = (News.json_articles (News.data_articles a ""),
     [ News.User_findById user; News.Category_find names;
       News.axios_get "" (News.fromDate a) (News.NEWS_API_KEY a) ]).
Proof.
  intros Hall Hadmin Hcats Hne Hnone.
  unfold News.get_news. rewrite !Hall, Hadmin, Hcats.
  destruct names; [congruence |]. rewrite Hall, Hnone.
  cbn [News.query News.allKeywords flat_map Js.join]. now rewrite Hall.
Qed.

Lemma news_query_is_empty_when_no_category_is_found_witness :
  News.get_news (Fixture.news Fixture.all_fine) 9
  = (News.json_articles (News.data_articles (Fixture.news Fixture.all_fine) ""),
     [ News.User_findById 9; News.Category_find ["Gardening"];
       News.axios_get "" (News.fromDate (Fixture.news Fixture.all_fine))
         (News.NEWS_API_KEY (Fixture.news Fixture.all_fine)) ]).
Proof.
  apply (news_query_is_empty_when_no_category_is_found
           (Fixture.news Fixture.all_fine) 9
           {| Account._id := 9; Account.categories := Some ["Gardening"] |}
           ["Gardening"]).
  - intros r. reflexivity.
  - reflexivity.
  - reflexivity.
  - discriminate.
  - reflexivity.
Defined.

(** X24.  When the request to NewsAPI fails, the route answers 500: with
    the message of NewsAPI's answer when there was an answer, and
    otherwise with a fixed message and the error's own text. *)
Theorem news_failure_is_reported {Item} (a : News.Answers Item) user admin names err :
  News.outcome a (News.User_findById user) = None ->
  List.find (fun u => Account._id u =? user) (News.User_accounts a) = Some admin ->
  Account.categories admin = Some names ->
  names <> [] ->
  News.outcome a (News.Category_find names) = None ->
  News.outcome a
    (News.axios_get (News.query (News.topics_named a names)) (News.fromDate a)
       (News.NEWS_API_KEY a)) = Some err ->
  (forall data_message,
     News.response err = Some data_message ->
     fst (News.get_news a user)
     = News.json_message 500
         ("Failed to fetch news: " +:+ default "undefined" data_message))
  /\ (News.response err = None ->
      fst (News.get_news a user)
      = News.json_message_error 500 "Failed to fetch news from NewsAPI.org."
          (News.message err)).
Proof.
  intros Huser Hadmin Hcats Hne Hfind Hget.
  assert (Hreply : fst (News.get_news a user) = News.news_failure err).
  { unfold News.get_news. rewrite Huser, Hadmin, Hcats.
    destruct names; [congruence |]. now rewrite Hfind, Hget. }
  rewrite Hreply. unfold News.news_failure. split.
  - intros data_message ->. reflexivity.
  - intros ->. reflexivity.
Qed.

Lemma news_failure_is_reported_witness :
  (forall data_message,
     News.response Fixture.quota_exceeded = Some data_message ->
     fst (News.get_news (Fixture.news Fixture.api_fails) 5)
     = News.json_message 500
         ("Failed to fetch news: " +:+ default "undefined" data_message))
  /\ (News.response Fixture.quota_exceeded = None ->
      fst (News.get_news (Fixture.news Fixture.api_fails) 5)
      = News.json_message_error 500 "Failed to fetch news from NewsAPI.org."
          (News.message Fixture.quota_exceeded)).
Proof.
  apply (news_failure_is_reported (Fixture.news Fixture.api_fails) 5
           {| Account._id := 5; Account.categories := Some ["Tech"] |} ["Tech"]
           Fixture.quota_exceeded).
  - reflexivity.
  - reflexivity.
  - reflexivity.
  - discriminate.
  - reflexivity.
  - reflexivity.
Defined.

(** X25.  A summary request is turned away before the generation service
    is asked: with 500 when no generation client is configured, whatever
    the text, and otherwise with 400 when the text is missing or empty. *)
Theorem summarize_turns_away {Item} (a : News.Answers Item) textToSummarize :
  (News.GEMINI_API_KEY a = false ->
   News.summarize a textToSummarize
   = (News.json_message 500
        "Gemini API client is not initialized. Please check your API key.",
      []))
  /\ (News.GEMINI_API_KEY a = true ->
      default "" textToSummarize = "" ->
      News.summarize a textToSummarize
      = (News.json_message 400 "No text provided to summarize.", [])).
Proof.
  unfold News.summarize. split.
  - intros ->. reflexivity.
  - intros -> Hnone. cbn [negb].
    destruct textToSummarize as [text |]; [| reflexivity].
    cbn in Hnone. now rewrite Hnone.
Qed.

(** X26.  A summary request with a text asks the generation service once,
    with the text set verbatim into the prompt, and passes on what it
    gets: the service's text as the summary, or, when the call fails, 500
    with the error's own text. *)
Theorem summarize_passes_the_answer_on {Item} (a : News.Answers Item) text :
  News.GEMINI_API_KEY a = true ->
  text <> "" ->
  snd (News.summarize a (Some text))
  = [News.model_generateContent (News.summary_prompt text)]
  /\ (News.outcome a (News.model_generateContent (News.summary_prompt text)) = None ->
      fst (News.summarize a (Some text))
      = News.json_summary (News.response_text a (News.summary_prompt text)))
  /\ (forall err,
        News.outcome a (News.model_generateContent (News.summary_prompt text))
        = Some err ->
        fst (News.summarize a (Some text))
        = News.json_message_error 500 "Failed to generate summary."
            (News.message err))
  /\ forall other, News.summary_prompt other = News.summary_prompt text ->
                   other = text.
Proof.
  intros Hkey Htext. unfold News.summarize. rewrite Hkey. cbn [negb].
  assert (Js.falsy text = false) as ->
    by (destruct text; [congruence | reflexivity]).
  split; [now destruct (News.outcome a _) |].
  split; [now intros -> |]. split; [now intros err -> |].
  intros other H. unfold News.summary_prompt in H.
  repeat apply append_cancel_l in H. now apply append_cancel_r in H.
Qed.

Lemma summarize_passes_the_answer_on_witness :
  snd (News.summarize (Fixture.news Fixture.generator_fails) (Some "Text."))
  = [News.model_generateContent (News.summary_prompt "Text.")]
  /\ (News.outcome (Fixture.news Fixture.generator_fails)
        (News.model_generateContent (News.summary_prompt "Text.")) = None ->
      fst (News.summarize (Fixture.news Fixture.generator_fails) (Some "Text."))
      = News.json_summary
          (News.response_text (Fixture.news Fixture.generator_fails)
             (News.summary_prompt "Text.")))
  /\ (forall err,
        News.outcome (Fixture.news Fixture.generator_fails)
          (News.model_generateContent (News.summary_prompt "Text.")) = Some err ->
        fst (News.summarize (Fixture.news Fixture.generator_fails) (Some "Text."))
        = News.json_message_error 500 "Failed to generate summary."
            (News.message err))
  /\ forall other, News.summary_prompt other = News.summary_prompt "Text." ->
                   other = "Text.".
Proof.
  apply (summarize_passes_the_answer_on (Fixture.news Fixture.generator_fails)
           "Text.").
  - reflexivity.
  - discriminate.
Defined.

(** ** Order of the external calls *)

(** X27.  However a generation request ends, it writes to no collection
    while the browser it launched is open: the newsletter and its
    notification are saved only after [browser.close] has resolved. *)
Theorem generate_and_save_writes_after_closing env user body w :
  writes_while_open 0
    (calls_since w (snd (generate_and_save env user body w))) = false.
Proof.
  unfold generate_and_save. run_handler.
  case_on_answers; since; reflexivity.
Qed.

(** X28.  With a provider configured and at least one identity resolved,
    a send hands the provider one message and no more, addressed to the
    addresses of exactly the users of the collection whose identity is
    listed, all in the one message. *)
Theorem send_mails_once_to_all_resolved env id userIds w newsletter :
  userIds <> [] ->
  rejects env (Call.Newsletter_findById id) = false ->
  newsletters w !! id = Some newsletter ->
  SENDGRID_API_KEY env = true ->
  rejects env (Call.User_find userIds) = false ->
  resolved env userIds <> [] ->
  map fst (List.filter (fun e => is_mail (fst e))
             (calls_since w (snd (send env id (Some userIds) w))))
  = [Call.sgMail_send (mail_for env newsletter (resolved env userIds))]
  /\ forall address,
       address ∈ Mail.to (mail_for env newsletter (resolved env userIds))
       <-> exists u, u ∈ User_collection env
                     /\ User._id u ∈ userIds
                     /\ User.email u = address.
Proof.
  intros Hne Hfind Hlook Hkey Husers Hres. split.
  - apply nonempty_length in Hres. unfold resolved in *.
    unfold send. rewrite (some_recipients _ Hne). cbn [from_option Datatypes.id].
    run_handler. rewrite Hfind. cbn [newsletters record_call]. rewrite Hlook, Hkey.
    rewrite Husers, Hres.
    case_on_answers; since; reflexivity.
  - intros address. cbn [Mail.to mail_for]. unfold resolved.
    rewrite list_elem_of_In, in_map_iff. split.
    + intros (u & Hmail & Hin). apply filter_In in Hin as [Hin Hid].
      exists u. rewrite list_elem_of_In.
      apply bool_decide_eq_true in Hid. auto.
    + intros (u & Hin & Hid & Hmail). exists u. split; [exact Hmail |].
      apply filter_In. split; [now apply list_elem_of_In |].
      now apply bool_decide_eq_true.
Qed.

Lemma send_mails_once_to_all_resolved_witness :
  map fst (List.filter (fun e => is_mail (fst e))
             (calls_since Fixture.shelf
                (snd (send Fixture.quiet 1 (Some [12; 40]) Fixture.shelf))))
  = [Call.sgMail_send
       (mail_for Fixture.quiet (Sample.newsletter "approved")
          (resolved Fixture.quiet [12; 40]))]
  /\ forall address,
       address ∈ Mail.to (mail_for Fixture.quiet (Sample.newsletter "approved")
                            (resolved Fixture.quiet [12; 40]))
       <-> exists u, u ∈ User_collection Fixture.quiet
                     /\ User._id u ∈ [12; 40]
                     /\ User.email u = address.
Proof.
  apply (send_mails_once_to_all_resolved Fixture.quiet 1 [12; 40] Fixture.shelf
           (Sample.newsletter "approved")).
  - discriminate.
  - reflexivity.
  - reflexivity.
  - reflexivity.
  - reflexivity.
  - vm_compute. discriminate.
Defined.

(** ** The code fence, end to end *)

(** X29.  When the generation service wraps a document of at least 100
    code units in a code fence, the generation succeeds and the newsletter
    stores the document itself, without the fence. *)
Theorem fenced_answer_is_stored_bare env user body w html :
  GEMINI_API_KEY env = true ->
  complete body = true ->
  (forall c, rejects env c = false) ->
  newsletters w !! new_ObjectId env = None ->
  response_text env (prompt_for env body)
  = "```html" +:+ Js.nl +:+ html +:+ Js.nl +:+ "```" ->
  (100 <= String.length html)%nat ->
  Newsletter.htmlContent
  <$> newsletters (snd (generate_and_save env user body w)) !! new_ObjectId env
  = Some (Some html).
Proof.
  intros Hkey Hbody Hall Hfree Htext Hlong.
  assert (Hbare : generated_for env body = html).
  { unfold generated_for. rewrite Htext. apply strip_code_fence_fenced. }
  assert (Husable : unusable (generated_for env body) = false).
  { destruct (unusable (generated_for env body)) eqn:Hno; [| reflexivity].
    apply unusable_spec in Hno. rewrite Hbare in Hno.
    destruct Hno as [-> | Hshort]; cbn in *; lia. }
  rewrite (generate_and_save_stores env user body w) by assumption.
  cbn [fmap option_fmap option_map new_newsletter
                        Newsletter.htmlContent].
  now rewrite Hbare.
Qed.

Lemma fenced_answer_is_stored_bare_witness :
  Newsletter.htmlContent
  <$> newsletters
        (snd (generate_and_save Fixture.quiet 5 Sample.body empty_world))
        !! new_ObjectId Fixture.quiet
  = Some (Some Sample.markup).
Proof.
  apply (fenced_answer_is_stored_bare Fixture.quiet 5 Sample.body empty_world
           Sample.markup).
  - reflexivity.
  - reflexivity.
  - reflexivity.
  - reflexivity.
  - reflexivity.
  - vm_compute. lia.
Defined.

(** ** The response headers *)

(** X30.  When the title holds a character that the white-space
    replacement leaves and a header value may not hold (a control
    character such as DEL), a generation in which every call resolves
    answers 500 although it has saved the newsletter and its notification;
    downloading that newsletter answers 500 as well. *)
Theorem generate_and_save_fails_on_the_header env env' user body w :
  GEMINI_API_KEY env = true ->
  complete body = true ->
  (forall c, rejects env c = false) ->
  unusable (generated_for env body) = false ->
  newsletters w !! new_ObjectId env = None ->
  checkInvalidHeaderChar (content_disposition (default "" (body_title body)))
  = true ->
  rejects env' (Call.Newsletter_findById (new_ObjectId env)) = false ->
  let w' := snd (generate_and_save env user body w) in
  fst (generate_and_save env user body w)
  = Returned (res_json 500
                "Failed to generate and save PDF. Check server logs for details.")
  /\ newsletters w' !! new_ObjectId env = Some (new_newsletter env body)
  /\ (exists doc,
        notifications w' = (notifications w ++ [doc])%list
        /\ Notification.newsletter doc = new_ObjectId env
        /\ Notification.user doc = user)
  /\ fst (download env' (new_ObjectId env) w')
     = Returned {| statusCode := 500;
                   body := send_text "Server error while retrieving PDF." |}.
Proof.
  intros Hkey Hbody Hall Husable Hfree Hname Hread w'.
  assert (Hstored : newsletters w' !! new_ObjectId env
                    = Some (new_newsletter env body))
    by now apply generate_and_save_stores.
  split; [| split; [exact Hstored | split]].
  - unfold generate_and_save. rewrite Hkey, (complete_false _ Hbody). cbn [negb].
    expose_request Husable. run_handler. rewrite !Hall, Husable.
    cbn [newsletters record_call Newsletter._id orb]. rewrite Hfree.
    rewrite bool_decide_eq_false_2 by (intros [? ?]; discriminate).
    change (checkInvalidHeaderChar "application/pdf") with false.
    cbv beta iota. rewrite Hname. reflexivity.
  - subst w'. unfold generate_and_save.
    rewrite Hkey, (complete_false _ Hbody). cbn [negb].
    expose_request Husable. run_handler. rewrite !Hall, Husable.
    cbn [newsletters record_call Newsletter._id orb]. rewrite Hfree.
    rewrite bool_decide_eq_false_2 by (intros [? ?]; discriminate).
    change (checkInvalidHeaderChar "application/pdf") with false.
    cbv beta iota. rewrite Hname.
    cbn [snd notifications set_newsletters add_notifications record_call].
    eexists. split; [reflexivity |]. split; reflexivity.
  - unfold download. run_handler. rewrite Hread.
    cbn [fst newsletters record_call]. rewrite Hstored.
    cbn [new_newsletter Newsletter.pdfContent Newsletter.title PdfContent.data
         PdfContent.contentType].
    change (checkInvalidHeaderChar "application/pdf") with false.
    cbv beta iota. rewrite Hname. reflexivity.
Qed.

Lemma generate_and_save_fails_on_the_header_witness :
  let w' := snd (generate_and_save Fixture.quiet 5 Fixture.body_with_DEL
                   empty_world) in
  fst (generate_and_save Fixture.quiet 5 Fixture.body_with_DEL empty_world)
  = Returned (res_json 500
                "Failed to generate and save PDF. Check server logs for details.")
  /\ newsletters w' !! new_ObjectId Fixture.quiet
     = Some (new_newsletter Fixture.quiet Fixture.body_with_DEL)
  /\ (exists doc,
        notifications w' = (notifications empty_world ++ [doc])%list
        /\ Notification.newsletter doc = new_ObjectId Fixture.quiet
        /\ Notification.user doc = 5)
  /\ fst (download Fixture.quiet (new_ObjectId Fixture.quiet) w')
     = Returned {| statusCode := 500;
                   body := send_text "Server error while retrieving PDF." |}.
Proof.
  apply (generate_and_save_fails_on_the_header Fixture.quiet Fixture.quiet 5
           Fixture.body_with_DEL empty_world).
  - reflexivity.
  - reflexivity.
  - reflexivity.
  - vm_compute. reflexivity.
  - reflexivity.
  - vm_compute. reflexivity.
  - reflexivity.
Defined.
